(** * leaf-flip: page-turn geometry and interaction engines

    A shallow embedding of the TypeScript sources [utils.ts] (class [Utils]),
    [flip-page.ts] (class [FlipPage]) and [leaf-page.ts] (class [TurnPage]),
    and the properties of the specification checked against them.

    Conventions of the embedding.
    - A JavaScript [number] holding a coordinate, a size or an angle is an
      exact rational ([Qc], canonical fractions, so that equality is Leibniz
      equality).  Arithmetic is therefore exact: rounding errors of IEEE
      doubles, NaN, infinities and the sign of zero are outside the model.
    - A page number, a page count and a z-index are integers ([Z]).
    - The host's transcendental functions ([Math.atan2], [Math.cos],
      [Math.sin], [Math.sqrt]) and [Math.PI] are an interface the engines are
      parameterised by (class [MathHost]).
    - Methods that mutate [this] are functions from a state record to a state
      record; a method that can [throw] returns the state reached together
      with its outcome.  DOM nodes are represented by the style properties
      the engines write, custom events by a log of dispatched events, and
      [setTimeout] by a list of pending timers. *)

From Stdlib Require Import ZArith QArith Qcanon Qround Ascii String List Lia Lqa.
From stdpp Require Import base decidable option numbers list strings gmap fin_maps.

Local Open Scope Z_scope.

(** ** JavaScript numbers *)

Module JS.

(** [Number] literals with a fractional part. *)
Definition frac (n : Z) (d : positive) : Qc := Q2Qc (n # d).

Definition ofZ (n : Z) : Qc := Q2Qc (inject_Z n).

(** Truthiness of a number: [0] is falsy (so is NaN, which the model does
    not have). *)
Definition truthy (v : Qc) : bool := negb (bool_decide (v = 0%Qc)).

(** [a || b] on numbers. *)
Definition or_else (a b : Qc) : Qc := if truthy a then a else b.

(** [a < b] and [a > b]. *)
Definition lt (a b : Qc) : bool := bool_decide (a < b)%Qc.
Definition gt (a b : Qc) : bool := bool_decide (b < a)%Qc.

(** [Math.abs]. *)
Definition abs (v : Qc) : Qc := if lt v 0%Qc then (- v)%Qc else v.

(** [Math.round]: the nearest integer, a tie going up. *)
Definition round (v : Qc) : Qc := ofZ (Qfloor (v + frac 1 2)%Qc).

(** [Array.prototype.includes] on an array of strings. *)
Definition includes (l : list string) (s : string) : bool :=
  existsb (String.eqb s) l.

End JS.

(** The host's [Math] object, as far as the engines use it. *)
Class MathHost := {
  PI : Qc;
  atan2 : Qc -> Qc -> Qc;
  cos : Qc -> Qc;
  sin : Qc -> Qc;
  sqrt : Qc -> Qc
}.

(** [interface Point2D { x: number; y: number }] *)
Module Point2D.
Record t := mk { x : Qc; y : Qc }.
#[global] Instance eq_dec : EqDecision t.
Proof. solve_decision. Defined.
End Point2D.

(** ** utils.ts *)

Module Utils.

(** [static createPoint2D(x, y)] *)
Definition createPoint2D (x y : Qc) : Point2D.t :=
  {| Point2D.x := (JS.round (x * JS.ofZ 1000) / JS.ofZ 1000)%Qc;
     Point2D.y := (JS.round (y * JS.ofZ 1000) / JS.ofZ 1000)%Qc |}.

(** The key of [memoizedBezier]: the template string lists the nine numbers
    separated by commas, so a key is the list of these numbers. *)
Definition bezierKey (p1 p2 p3 p4 : Point2D.t) (t : Qc) : list Qc :=
  [ Point2D.x p1; Point2D.y p1; Point2D.x p2; Point2D.y p2;
    Point2D.x p3; Point2D.y p3; Point2D.x p4; Point2D.y p4; t ].

(** [private static memoizedBezier = new Map<string, Point2D>()] *)
Definition initialMemo : gmap (list Qc) Point2D.t := ∅.

(** [static bezier(p1, p2, p3, p4, t)]: the returned point and the cache
    after the call. *)
Definition bezier (memoizedBezier : gmap (list Qc) Point2D.t)
    (p1 p2 p3 p4 : Point2D.t) (t : Qc)
    : Point2D.t * gmap (list Qc) Point2D.t :=
  let key := bezierKey p1 p2 p3 p4 t in
  match memoizedBezier !! key with
  | Some cached => (cached, memoizedBezier)
  | None =>
      let mum1 := (1 - t)%Qc in
      let mum13 := (mum1 * mum1 * mum1)%Qc in
      let mu3 := (t * t * t)%Qc in
      let three := JS.ofZ 3 in
      let point :=
        createPoint2D
          (mum13 * Point2D.x p1 + three * t * mum1 * mum1 * Point2D.x p2
           + three * t * t * mum1 * Point2D.x p3 + mu3 * Point2D.x p4)%Qc
          (mum13 * Point2D.y p1 + three * t * mum1 * mum1 * Point2D.y p2
           + three * t * t * mum1 * Point2D.y p3 + mu3 * Point2D.y p4)%Qc in
      (point, <[key := point]> memoizedBezier)
  end.

(** [static clearMemoization()] *)
Definition clearMemoization (memoizedBezier : gmap (list Qc) Point2D.t)
    : gmap (list Qc) Point2D.t := ∅.

(** The cache is private to [Utils]: the states it can be in are those
    reached from the empty map by calls of [bezier] and
    [clearMemoization]. *)
Inductive reachable : gmap (list Qc) Point2D.t -> Prop :=
| reach_init : reachable initialMemo
| reach_bezier m p1 p2 p3 p4 t :
    reachable m -> reachable (snd (bezier m p1 p2 p3 p4 t))
| reach_clear m : reachable m -> reachable (clearMemoization m).

(** Reference definitions, written from the specification: the cubic
    Bernstein polynomial of four control values, rounding to three
    decimals, and the uncached evaluation of the curve. *)
Definition cubic_spec (a b c d t : Qc) : Qc :=
  ((1 - t) ^ 3 * a + JS.ofZ 3 * (1 - t) ^ 2 * t * b
   + JS.ofZ 3 * (1 - t) * t ^ 2 * c + t ^ 3 * d)%Qc.

Definition round3_spec (v : Qc) : Qc :=
  (JS.ofZ (Qfloor (JS.ofZ 1000 * v + JS.frac 1 2)%Qc) / JS.ofZ 1000)%Qc.

Definition bezier_spec (p1 p2 p3 p4 : Point2D.t) (t : Qc) : Point2D.t :=
  {| Point2D.x := round3_spec (cubic_spec (Point2D.x p1) (Point2D.x p2)
                                          (Point2D.x p3) (Point2D.x p4) t);
     Point2D.y := round3_spec (cubic_spec (Point2D.y p1) (Point2D.y p2)
                                          (Point2D.y p3) (Point2D.y p4) t) |}.

(** A point whose coordinates are whole thousandths. *)
Definition onGrid (p : Point2D.t) : Prop :=
  exists a b : Z,
    p = {| Point2D.x := (JS.ofZ a / JS.ofZ 1000)%Qc;
           Point2D.y := (JS.ofZ b / JS.ofZ 1000)%Qc |}.

(** Every entry of a cache holds the reference value of its key. *)
Definition memo_sound (m : gmap (list Qc) Point2D.t) : Prop :=
  forall p1 p2 p3 p4 t p,
    m !! bezierKey p1 p2 p3 p4 t = Some p -> p = bezier_spec p1 p2 p3 p4 t.


(** [static transform(...transforms)]: [transforms.join(' ')]. *)
Definition transform (transforms : list string) : string :=
  String.concat " " transforms.

End Utils.

(** ** Pointer events *)

(** What the input collaborator delivers: a mouse event, or a touch event
    with its list of touches, in client coordinates; and the part of
    [getBoundingClientRect()] the engines read. *)
Module Pointer.
Record Client := { clientX : Qc; clientY : Qc }.
Inductive Event :=
| MouseEvent (at_ : Client)
| TouchEvent (touches : list Client).
Record DOMRect := { left : Qc; top : Qc }.
End Pointer.

(** ** flip-page.ts: the single-surface engine *)

Module FlipPage.

(** [FlipOptions] after the merge with [defaultFlipOptions].  [corners] is
    [None] when the option does not hold a string, [cornerSize] is [None]
    when it is [undefined]. *)
Record FlipOptions := {
  corners : option string;
  cornerSize : option Qc;
  gradients : bool;
  duration : Qc;
  acceleration : bool
}.

Definition defaultFlipOptions : FlipOptions :=
  {| corners := Some "forward"; cornerSize := Some (JS.ofZ 100);
     gradients := true; duration := JS.ofZ 600; acceleration := true |}.

(** The value of [style.transform] of the folding page: the CSS function
    and its arguments, in the order they are written. *)
Inductive Transform :=
| TransformUnset
| TransformNone
| Matrix (args : list Qc)
| Matrix3d (args : list Qc).

#[global] Instance Transform_eq_dec : EqDecision Transform.
Proof. solve_decision. Defined.

Inductive FlipEvent :=
| flipstart (point : Point2D.t) (corner : string)
| flipend.

(** The engine: its fields, the live size of the element, the styles it
    writes, the events it dispatched (oldest first) and the timers
    [completeFlip] left pending (their delays). *)
Record state := {
  options : FlipOptions;
  offsetWidth : Qc;
  offsetHeight : Qc;
  point : option (Point2D.t * string);
  isTurning : bool;
  isDisabled : bool;
  fpageTransform : Transform;
  fpageTransition : option Qc;
  shadow : option (option Qc);
  wrapperSize : Qc;
  attached : bool;
  events : list FlipEvent;
  timers : list Qc
}.

Definition with_session (pt : option (Point2D.t * string)) (turning : bool)
    (s : state) : state :=
  {| options := options s; offsetWidth := offsetWidth s;
     offsetHeight := offsetHeight s; point := pt; isTurning := turning;
     isDisabled := isDisabled s; fpageTransform := fpageTransform s;
     fpageTransition := fpageTransition s; shadow := shadow s;
     wrapperSize := wrapperSize s; attached := attached s;
     events := events s; timers := timers s |}.

Definition with_fpage (tr : Transform) (ti : option Qc) (sh : option (option Qc))
    (s : state) : state :=
  {| options := options s; offsetWidth := offsetWidth s;
     offsetHeight := offsetHeight s; point := point s;
     isTurning := isTurning s; isDisabled := isDisabled s;
     fpageTransform := tr; fpageTransition := ti; shadow := sh;
     wrapperSize := wrapperSize s; attached := attached s;
     events := events s; timers := timers s |}.

Definition with_host (w h size : Qc) (att dis : bool) (s : state) : state :=
  {| options := options s; offsetWidth := w; offsetHeight := h;
     point := point s; isTurning := isTurning s; isDisabled := dis;
     fpageTransform := fpageTransform s;
     fpageTransition := fpageTransition s; shadow := shadow s;
     wrapperSize := size; attached := att;
     events := events s; timers := timers s |}.

Definition with_queues (evs : list FlipEvent) (tms : list Qc) (s : state)
    : state :=
  {| options := options s; offsetWidth := offsetWidth s;
     offsetHeight := offsetHeight s; point := point s;
     isTurning := isTurning s; isDisabled := isDisabled s;
     fpageTransform := fpageTransform s;
     fpageTransition := fpageTransition s; shadow := shadow s;
     wrapperSize := wrapperSize s; attached := attached s;
     events := evs; timers := tms |}.

Definition dispatchEvent (e : FlipEvent) (s : state) : state :=
  with_queues (events s ++ [e]) (timers s) s.

(** The [allowedCorners] computed at the head of [detectCorner]. *)
Definition allowedCorners (corners : option string) : list string :=
  match corners with
  | Some c =>
      if String.eqb c "forward" then ["br"; "tr"]
      else if String.eqb c "backward" then ["bl"; "tl"]
      else if String.eqb c "all" then ["tl"; "bl"; "tr"; "br"]
      else ["br"; "tr"]
  | None => ["br"; "tr"]
  end.

(** [private detectCorner(point)] *)
Definition detectCorner (s : state) (point : Point2D.t) : option string :=
  let width := offsetWidth s in
  let height := offsetHeight s in
  match cornerSize (options s) with
  | None => None
  | Some cornerSize =>
      if negb (JS.truthy cornerSize) then None
      else
        let allowed := allowedCorners (corners (options s)) in
        if JS.lt (Point2D.y point) cornerSize then
          if JS.lt (Point2D.x point) cornerSize && JS.includes allowed "tl"
          then Some "tl"
          else if JS.gt (Point2D.x point) (width - cornerSize)%Qc
                  && JS.includes allowed "tr"
          then Some "tr"
          else None
        else if JS.gt (Point2D.y point) (height - cornerSize)%Qc then
          if JS.lt (Point2D.x point) cornerSize && JS.includes allowed "bl"
          then Some "bl"
          else if JS.gt (Point2D.x point) (width - cornerSize)%Qc
                  && JS.includes allowed "br"
          then Some "br"
          else None
        else None
  end.

(** [corner.charAt(0) === 'b'] *)
Definition startsWith_b (corner : string) : bool :=
  match corner with
  | String c _ => Ascii.eqb c "b"%char
  | EmptyString => false
  end.

(** [private getPoint(e)], for the rectangle the element reports. *)
Definition getPoint (rect : Pointer.DOMRect) (e : Pointer.Event) : Point2D.t :=
  match e with
  | Pointer.TouchEvent touches =>
      match head touches with
      | None => Point2D.mk 0 0
      | Some touch =>
          {| Point2D.x := (Pointer.clientX touch - Pointer.left rect)%Qc;
             Point2D.y := (Pointer.clientY touch - Pointer.top rect)%Qc |}
      end
  | Pointer.MouseEvent e =>
      {| Point2D.x := (Pointer.clientX e - Pointer.left rect)%Qc;
         Point2D.y := (Pointer.clientY e - Pointer.top rect)%Qc |}
  end.

Section Engine.
Context `{MathHost}.

(** The [matrix] array of [applyTransform]. *)
Definition foldMatrix (fold : Point2D.t) (angle : Qc) : list Qc :=
  [ cos angle; sin angle; (- sin angle)%Qc; cos angle;
    Point2D.x fold; Point2D.y fold ].

(** The [transform] string of [applyTransform]: [matrix.join(',')]
    inside [matrix(...)], or followed by [,0,0,0,0,1] inside
    [matrix3d(...)]. *)
Definition transformOf (acceleration : bool) (fold : Point2D.t)
    (angle : Qc) : Transform :=
  if acceleration
  then Matrix3d (foldMatrix fold angle ++ [0; 0; 0; 0; 1]%Qc)
  else Matrix (foldMatrix fold angle).

(** [private applyTransform(fold, angle)]; the shadow's background is
    kept as the opacity [0.5 - intensity] its gradient starts from. *)
Definition applyTransform (fold : Point2D.t) (angle : Qc) (s : state)
    : state :=
  let transform := transformOf (acceleration (options s)) fold angle in
  let shadow' :=
    match shadow s with
    | Some background =>
        if gradients (options s) then
          let intensity :=
            (JS.frac 1 2 - JS.abs angle / (JS.ofZ 2 * PI))%Qc in
          Some (Some (JS.frac 1 2 - intensity)%Qc)
        else Some background
    | None => None
    end in
  with_fpage transform (fpageTransition s) shadow' s.

(** [private updateFlip(point)] *)
Definition updateFlip (pt : Point2D.t) (s : state) : state :=
  match point s with
  | None => s
  | Some (start, corner) =>
      let width := offsetWidth s in
      let height := offsetHeight s in
      let angle :=
        atan2 (Point2D.y pt - Point2D.y start)%Qc
              (Point2D.x pt - Point2D.x start)%Qc in
      let angle := if startsWith_b corner then (angle + PI)%Qc else angle in
      let fold :=
        {| Point2D.x := (width - cos angle * width)%Qc;
           Point2D.y := (height - sin angle * height)%Qc |} in
      applyTransform fold angle s
  end.

(** [private completeFlip()] *)
Definition completeFlip (s : state) : state :=
  let duration := JS.or_else (duration (options s)) (JS.ofZ 600) in
  let s := with_fpage TransformNone (Some duration) (shadow s) s in
  with_queues (events s) (timers s ++ [duration]) s.

(** The callback [completeFlip] hands to [setTimeout], run for the
    [k]-th pending timer. *)
Definition timeout (k : nat) (s : state) : state :=
  match timers s !! k with
  | None => s
  | Some _ =>
      let s := with_fpage (fpageTransform s) None (shadow s) s in
      with_queues (events s) (delete k (timers s)) s
  end.

(** [private handleStart(e)], on the point [getPoint(e)]. *)
Definition handleStart (pt : Point2D.t) (s : state) : state :=
  if isDisabled s || isTurning s then s
  else
    match detectCorner s pt with
    | Some corner =>
        let s := with_session (Some (pt, corner)) true s in
        dispatchEvent (flipstart pt corner) s
    | None => s
    end.

(** [private handleMove(e)] *)
Definition handleMove (pt : Point2D.t) (s : state) : state :=
  match point s with
  | None => s
  | Some _ => if negb (isTurning s) then s else updateFlip pt s
  end.

(** [private handleEnd()] *)
Definition handleEnd (s : state) : state :=
  match point s with
  | None => s
  | Some pt =>
      if negb (isTurning s) then s
      else
        let s := with_session (Some pt) false s in
        let s := completeFlip s in
        let s := with_session None (isTurning s) s in
        dispatchEvent flipend s
  end.

(** [private getDefaultCornerPoint(corner)] *)
Definition getDefaultCornerPoint (s : state) (corner : string)
    : option Point2D.t :=
  let width := offsetWidth s in
  let height := offsetHeight s in
  if String.eqb corner "tl" then Some (Point2D.mk 0 0)
  else if String.eqb corner "tr" then Some (Point2D.mk width 0)
  else if String.eqb corner "bl" then Some (Point2D.mk 0 height)
  else if String.eqb corner "br" then Some (Point2D.mk width height)
  else None.

(** [public flip(corner)] *)
Definition flip (corner : string) (s : state) : state :=
  if isDisabled s || isTurning s then s
  else
    match getDefaultCornerPoint s corner with
    | None => s
    | Some pt =>
        let s := with_session (Some (pt, corner)) true s in
        updateFlip pt s
    end.

(** [public resize()] *)
Definition resize (s : state) : state :=
  let width := offsetWidth s in
  let height := offsetHeight s in
  let size := sqrt (width * width + height * height)%Qc in
  with_host width height size (attached s) (isDisabled s) s.

(** [public disable(disabled)] *)
Definition disable (disabled : bool) (s : state) : state :=
  with_host (offsetWidth s) (offsetHeight s) (wrapperSize s) (attached s)
    disabled s.

(** [public destroy()].  The listeners it asks to remove are fresh
    [bind] results, never the registered ones, so the handlers stay
    registered; the two wrappers leave the document. *)
Definition destroy (s : state) : state :=
  with_host (offsetWidth s) (offsetHeight s) (wrapperSize s) false
    (isDisabled s) s.

(** The fields as [constructor(element, options)] initialises them,
    for an element of size [w] x [h]; no wrapper exists yet. *)
Definition fresh (opts : FlipOptions) (w h : Qc) : state :=
  {| options := opts; offsetWidth := w; offsetHeight := h;
     point := None; isTurning := false; isDisabled := false;
     fpageTransform := TransformUnset; fpageTransition := None;
     shadow := None; wrapperSize := 0%Qc; attached := false;
     events := []; timers := [] |}.

(** [private setupWrapper()]: [None] when it throws because the
    element has no parent. *)
Definition setupWrapper (hasParent : bool) (s : state) : option state :=
  if negb hasParent then None
  else
    let s :=
      with_fpage (fpageTransform s) (fpageTransition s)
        (if gradients (options s) then Some None else None) s in
    let s :=
      with_host (offsetWidth s) (offsetHeight s) (wrapperSize s) true
        (isDisabled s) s in
    Some (resize s).

(** [constructor(element, options)], which ends with [initialize()]. *)
Definition create (hasParent : bool) (opts : FlipOptions) (w h : Qc)
    : option state :=
  setupWrapper hasParent (fresh opts w h).

(** What can happen to an engine: a call of a public method, a pointer
    event, a timer, or a change of the element's layout. *)
Inductive action :=
| Start (pt : Point2D.t)
| Move (pt : Point2D.t)
| End_
| Flip (corner : string)
| Resize
| Disable (disabled : bool)
| Destroy
| Timeout_ (k : nat)
| Layout (w h : Qc).

Definition step (a : action) (s : state) : state :=
  match a with
  | Start pt => handleStart pt s
  | Move pt => handleMove pt s
  | End_ => handleEnd s
  | Flip corner => flip corner s
  | Resize => resize s
  | Disable d => disable d s
  | Destroy => destroy s
  | Timeout_ k => timeout k s
  | Layout w h =>
      with_host w h (wrapperSize s) (attached s) (isDisabled s) s
  end.

Definition run (l : list action) (s : state) : state :=
  foldl (fun s a => step a s) s l.

Inductive reachable : state -> Prop :=
| reach_create opts w h s :
    create true opts w h = Some s -> reachable s
| reach_step a s : reachable s -> reachable (step a s).



(** The arguments the accelerated form ought to have: the 4x4 extension
    of [matrix(a, b, c, d, tx, ty)]. *)
Definition extended (fold : Point2D.t) (angle : Qc) : list Qc :=
  [ cos angle; sin angle; 0; 0;
    (- sin angle); cos angle; 0; 0;
    0; 0; 1; 0;
    Point2D.x fold; Point2D.y fold; 0; 1 ]%Qc.

(** The engine is turning exactly when it holds a session point. *)
Definition sessionInv (s : state) : Prop :=
  isTurning s = true <-> is_Some (point s).

End Engine.

(** Reading of a transform value as a 4x4 matrix (column-major, sixteen
    entries), after the CSS Transforms standard: [matrix(a,b,c,d,tx,ty)]
    stands for [matrix3d(a,b,0,0, c,d,0,0, 0,0,1,0, tx,ty,0,1)], and
    [matrix3d] takes exactly sixteen arguments; any other argument count
    is not a transform. *)
Definition denote (t : Transform) : option (list Qc) :=
  match t with
  | TransformUnset | TransformNone =>
      Some [1; 0; 0; 0;  0; 1; 0; 0;  0; 0; 1; 0;  0; 0; 0; 1]%Qc
  | Matrix [a; b; c; d; tx; ty] =>
      Some [a; b; 0; 0;  c; d; 0; 0;  0; 0; 1; 0;  tx; ty; 0; 1]%Qc
  | Matrix _ => None
  | Matrix3d l => if bool_decide (length l = 16%nat) then Some l else None
  end.

End FlipPage.

(** ** leaf-page.ts: the pagination engine *)

(** [LeafOptions] after the merge with [defaultLeafOptions]; an absent
    ([undefined]) option is [None].  [corners] is declared by the type and
    read nowhere in the engine. *)
Module LeafOptions.
Record t := {
  page : option Z;
  width : option Qc;
  height : option Qc;
  gradients : bool;
  duration : option Qc;
  acceleration : bool;
  display : option string;
  corners : list (string * list string)
}.
End LeafOptions.

(** The style properties of a page wrapper that the engine writes. *)
Module WrapperStyle.
Inductive Visibility := VisibilityUnset | visible | hidden.
Inductive Length := LengthUnset | auto | px (v : Qc).
Inductive Transform :=
| TransformUnset
| TransformNone
| rotate (deg : Qc) (translateZ0 : bool).

Record t := {
  width : Qc;
  height : Qc;
  visibility : Visibility;
  top : Length;
  left : Length;
  right : Length;
  bottom : Length;
  zIndex : option Z;
  transformOrigin : option Point2D.t;
  transform : Transform;
  transition : option Qc
}.

Definition with_width (w : Qc) (s : t) : t :=
  {| width := w; height := height s; visibility := visibility s;
     top := top s; left := left s; right := right s; bottom := bottom s;
     zIndex := zIndex s; transformOrigin := transformOrigin s;
     transform := transform s; transition := transition s |}.

Definition with_visibility (v : Visibility) (s : t) : t :=
  {| width := width s; height := height s; visibility := v;
     top := top s; left := left s; right := right s; bottom := bottom s;
     zIndex := zIndex s; transformOrigin := transformOrigin s;
     transform := transform s; transition := transition s |}.

Definition with_position (tp lf rg bt : Length) (s : t) : t :=
  {| width := width s; height := height s; visibility := visibility s;
     top := tp; left := lf; right := rg; bottom := bt;
     zIndex := zIndex s; transformOrigin := transformOrigin s;
     transform := transform s; transition := transition s |}.

Definition with_zIndex (z : option Z) (s : t) : t :=
  {| width := width s; height := height s; visibility := visibility s;
     top := top s; left := left s; right := right s; bottom := bottom s;
     zIndex := z; transformOrigin := transformOrigin s;
     transform := transform s; transition := transition s |}.

Definition with_transform (o : option Point2D.t) (tr : Transform)
    (ti : option Qc) (s : t) : t :=
  {| width := width s; height := height s; visibility := visibility s;
     top := top s; left := left s; right := right s; bottom := bottom s;
     zIndex := zIndex s; transformOrigin := o;
     transform := tr; transition := ti |}.
End WrapperStyle.

(** The result of [calculateFoldPosition]. *)
Module Fold.
Record t := { x : Qc; y : Qc; angle : Qc }.
End Fold.

Module TurnPage.

(** A page element, by the [style.width] and [style.height] written to
    it. *)
Record Element := { elWidth : option Qc; elHeight : option Qc }.

(** [interface PageData] ([pages] stays empty and [tpage] is never
    assigned, so they carry no information). *)
Record PageData := {
  pageObjs : gmap Z Element;
  pageWrap : gmap Z WrapperStyle.t;
  pagePlace : gmap Z Z;
  pageMv : list Z;
  totalPages : Z;
  page : Z;
  display : string;
  disabled : bool;
  done : bool
}.

Inductive TurnEvent :=
| displayChanged (previous current : string)
| pageChanged (previous current : Z)
| flipStart (page : Z) (corner : string)
| flipMove (page : Z) (foldX width : Qc)
| flipComplete (page : Z).

(** The engine: options, data, the live size of the element, the styles
    written to the element itself, the events dispatched (oldest first)
    and the pending timers of [completeFlip] (page and delay). *)
Record state := {
  options : LeafOptions.t;
  data : PageData;
  offsetWidth : Qc;
  offsetHeight : Qc;
  styleWidth : Qc;
  styleHeight : Qc;
  accelerated : bool;
  events : list TurnEvent;
  timers : list (Z * Qc)
}.

Inductive Error :=
| InvalidDisplayMode (display : string)
| InvalidPageNumber (pageNumber : Z).

(** How a call ends: it returns, or it throws. *)
Inductive completion := Normal | Throw (e : Error).

Definition defaultLeafOptions : LeafOptions.t :=
  {| LeafOptions.page := Some 1; LeafOptions.width := None;
     LeafOptions.height := None; LeafOptions.gradients := true;
     LeafOptions.duration := Some (JS.ofZ 600);
     LeafOptions.acceleration := true;
     LeafOptions.display := Some "double"; LeafOptions.corners := [] |}.

Definition displays : list string := ["single"; "double"].

Record PagePosition := {
  top : Qc;
  left : option Qc;
  right : option Qc;
  bottom : option Qc
}.

(** [const pagePositions] ([None] in a position is ['auto']). *)
Definition pagePositions (index : Z) : option PagePosition :=
  if index =? 0 then
    Some {| top := 0%Qc; left := Some 0%Qc; right := None; bottom := None |}
  else if index =? 1 then
    Some {| top := 0%Qc; right := Some 0%Qc; left := None; bottom := None |}
  else None.

Definition with_data (d : PageData) (s : state) : state :=
  {| options := options s; data := d; offsetWidth := offsetWidth s;
     offsetHeight := offsetHeight s; styleWidth := styleWidth s;
     styleHeight := styleHeight s; accelerated := accelerated s;
     events := events s; timers := timers s |}.

Definition with_queues (evs : list TurnEvent) (tms : list (Z * Qc))
    (s : state) : state :=
  {| options := options s; data := data s; offsetWidth := offsetWidth s;
     offsetHeight := offsetHeight s; styleWidth := styleWidth s;
     styleHeight := styleHeight s; accelerated := accelerated s;
     events := evs; timers := tms |}.

Definition with_layout (w h : Qc) (s : state) : state :=
  {| options := options s; data := data s; offsetWidth := w;
     offsetHeight := h; styleWidth := styleWidth s;
     styleHeight := styleHeight s; accelerated := accelerated s;
     events := events s; timers := timers s |}.

Definition with_pages (objs : gmap Z Element) (wraps : gmap Z WrapperStyle.t)
    (place : gmap Z Z) (total : Z) (d : PageData) : PageData :=
  {| pageObjs := objs; pageWrap := wraps; pagePlace := place;
     pageMv := pageMv d; totalPages := total; page := page d;
     display := display d; disabled := disabled d; done := done d |}.

Definition with_cursor (mv : list Z) (pg : Z) (dsp : string) (dn : bool)
    (d : PageData) : PageData :=
  {| pageObjs := pageObjs d; pageWrap := pageWrap d;
     pagePlace := pagePlace d; pageMv := mv; totalPages := totalPages d;
     page := pg; display := dsp; disabled := disabled d; done := dn |}.

Definition with_pageWrap (wraps : gmap Z WrapperStyle.t) (s : state)
    : state :=
  with_data (with_pages (pageObjs (data s)) wraps (pagePlace (data s))
               (totalPages (data s)) (data s)) s.

Definition with_pageMv (mv : list Z) (s : state) : state :=
  with_data (with_cursor mv (page (data s)) (display (data s))
               (done (data s)) (data s)) s.

Definition with_page (pg : Z) (s : state) : state :=
  with_data (with_cursor (pageMv (data s)) pg (display (data s))
               (done (data s)) (data s)) s.

Definition with_display (dsp : string) (s : state) : state :=
  with_data (with_cursor (pageMv (data s)) (page (data s)) dsp
               (done (data s)) (data s)) s.

Definition with_done (dn : bool) (s : state) : state :=
  with_data (with_cursor (pageMv (data s)) (page (data s))
               (display (data s)) dn (data s)) s.

(** [private dispatchEvent(name, detail)] *)
Definition dispatchEvent (e : TurnEvent) (s : state) : state :=
  with_queues (events s ++ [e]) (timers s) s.

(** [private detectCorner(point)] *)
Definition detectCorner (s : state) (point : Point2D.t) : option string :=
  let width := offsetWidth s in
  let height := offsetHeight s in
  let cornerSize := JS.ofZ 50 in
  if JS.lt (Point2D.y point) cornerSize then
    if JS.lt (Point2D.x point) cornerSize then Some "tl"
    else if JS.gt (Point2D.x point) (width - cornerSize)%Qc then Some "tr"
    else None
  else if JS.gt (Point2D.y point) (height - cornerSize)%Qc then
    if JS.lt (Point2D.x point) cornerSize then Some "bl"
    else if JS.gt (Point2D.x point) (width - cornerSize)%Qc then Some "br"
    else None
  else None.

(** [private getPageWidth()] *)
Definition getPageWidth (s : state) : Qc :=
  if String.eqb (display (data s)) "double"
  then (offsetWidth s / JS.ofZ 2)%Qc
  else offsetWidth s.

(** [private view()] *)
Definition view (s : state) : list Z :=
  let page := if page (data s) =? 0 then 1 else page (data s) in
  if String.eqb (display (data s)) "double" then
    if negb (Z.rem page 2 =? 0) then [page; page + 1] else [page - 1; page]
  else [page].

(** One iteration of the loop of [updatePagesPosition]. *)
Definition positionPage (view : list Z) (display : string)
    (wraps : gmap Z WrapperStyle.t) (page : Z) : gmap Z WrapperStyle.t :=
  match wraps !! page with
  | None => wraps
  | Some wrapper =>
      if existsb (Z.eqb page) view then
        let index := if String.eqb display "double" then Z.rem page 2 else 0 in
        match pagePositions index with
        | None => wraps
        | Some position =>
            let len (v : option Qc) :=
              match v with
              | None => WrapperStyle.auto
              | Some n => WrapperStyle.px n
              end in
            <[page :=
                WrapperStyle.with_position
                  (WrapperStyle.px (top position)) (len (left position))
                  (len (right position)) (len (bottom position))
                  (WrapperStyle.with_visibility WrapperStyle.visible wrapper)]>
              wraps
        end
      else
        <[page := WrapperStyle.with_visibility WrapperStyle.hidden wrapper]>
          wraps
  end.

(** [private updatePagesPosition()] *)
Definition updatePagesPosition (s : state) : state :=
  with_pageWrap
    (foldl (positionPage (view s) (display (data s)))
           (pageWrap (data s)) (seqZ 1 (totalPages (data s))))
    s.

(** [public setPage(pageNumber)] *)
Definition setPage (pageNumber : Z) (s : state) : completion * state :=
  if (pageNumber <? 1) || (pageNumber >? totalPages (data s)) then
    (Throw (InvalidPageNumber pageNumber), s)
  else if page (data s) =? pageNumber then (Normal, s)
  else
    let previousPage := page (data s) in
    let s := with_page pageNumber s in
    let s := updatePagesPosition s in
    (Normal, dispatchEvent (pageChanged previousPage pageNumber) s).

(** [public setDisplay(display)] *)
Definition setDisplay (display' : string) (s : state) : completion * state :=
  if negb (JS.includes displays display') then
    (Throw (InvalidDisplayMode display'), s)
  else if String.eqb (display (data s)) display' then (Normal, s)
  else
    let previousDisplay := display (data s) in
    let s := with_display display' s in
    let s :=
      if done (data s) then
        let width := getPageWidth s in
        let s :=
          with_data
            (with_pages
               ((fun page =>
                   {| elWidth := Some width; elHeight := elHeight page |})
                  <$> pageObjs (data s))
               (WrapperStyle.with_width width <$> pageWrap (data s))
               (pagePlace (data s)) (totalPages (data s)) (data s)) s in
        updatePagesPosition s
      else s in
    (Normal, dispatchEvent (displayChanged previousDisplay display') s).

(** [public addPage(element, page?)] *)
Definition addPage (element : option Element) (page : option Z) (s : state)
    : state :=
  match element with
  | None => s
  | Some _ =>
      let page :=
        match page with
        | Some p => if p =? 0 then totalPages (data s) + 1 else p
        | None => totalPages (data s) + 1
        end in
      let total :=
        if page >? totalPages (data s) then page else totalPages (data s) in
      let pageWrapper :=
        {| WrapperStyle.width := getPageWidth s;
           WrapperStyle.height := offsetHeight s;
           WrapperStyle.visibility := WrapperStyle.VisibilityUnset;
           WrapperStyle.top := WrapperStyle.LengthUnset;
           WrapperStyle.left := WrapperStyle.LengthUnset;
           WrapperStyle.right := WrapperStyle.LengthUnset;
           WrapperStyle.bottom := WrapperStyle.LengthUnset;
           WrapperStyle.zIndex := None;
           WrapperStyle.transformOrigin := None;
           WrapperStyle.transform := WrapperStyle.TransformUnset;
           WrapperStyle.transition := None |} in
      let element :=
        {| elWidth := Some (getPageWidth s);
           elHeight := Some (offsetHeight s) |} in
      with_data
        (with_pages (<[page := element]> (pageObjs (data s)))
                    (<[page := pageWrapper]> (pageWrap (data s)))
                    (<[page := page]> (pagePlace (data s)))
                    total (data s)) s
  end.

(** [public next()]; [view()] has at least one element. *)
Definition next (s : state) : completion * state :=
  match view s with
  | [] => (Normal, s)
  | p :: ps =>
      let nextPage := foldl Z.max p ps + 1 in
      if nextPage <=? totalPages (data s) then setPage nextPage s
      else (Normal, s)
  end.

(** [public previous()] *)
Definition previous (s : state) : completion * state :=
  match view s with
  | [] => (Normal, s)
  | p :: ps =>
      let prevPage := foldl Z.min p ps - 1 in
      if prevPage >=? 1 then setPage prevPage s else (Normal, s)
  end.

(** [public destroy()].  The listeners it asks to remove are not the
    bound functions that were registered, so the handlers stay
    registered. *)
Definition destroy (s : state) : state :=
  with_data
    {| pageObjs := ∅; pageWrap := ∅; pagePlace := ∅; pageMv := [];
       totalPages := 0; page := 1; display := "double";
       disabled := false; done := false |} s.

(** [corner.includes('r')] *)
Definition includes_r (corner : string) : bool :=
  match String.index 0 "r" corner with
  | Some _ => true
  | None => false
  end.

(** [private getEventPoint(e)], for the rectangle the element reports. *)
Definition getEventPoint (rect : Pointer.DOMRect) (e : Pointer.Event) : Point2D.t :=
  match e with
  | Pointer.TouchEvent touches =>
      match head touches with
      | None => Point2D.mk 0 0
      | Some touch =>
          {| Point2D.x := (Pointer.clientX touch - Pointer.left rect)%Qc;
             Point2D.y := (Pointer.clientY touch - Pointer.top rect)%Qc |}
      end
  | Pointer.MouseEvent e =>
      {| Point2D.x := (Pointer.clientX e - Pointer.left rect)%Qc;
         Point2D.y := (Pointer.clientY e - Pointer.top rect)%Qc |}
  end.

Section Engine.
Context `{MathHost}.

(** [private calculateFoldPosition(corner, point, width, height)] *)
Definition calculateFoldPosition (corner : string) (point : Point2D.t)
    (width height : Qc) : Fold.t :=
  if String.eqb corner "tl" then
    let x := JS.or_else (Point2D.x point) 0%Qc in
    let y := JS.or_else (Point2D.y point) 0%Qc in
    {| Fold.x := x; Fold.y := y; Fold.angle := atan2 y x |}
  else if String.eqb corner "tr" then
    let x := (JS.or_else (Point2D.x point) width - width)%Qc in
    let y := JS.or_else (Point2D.y point) 0%Qc in
    {| Fold.x := x; Fold.y := y; Fold.angle := atan2 y x |}
  else if String.eqb corner "bl" then
    let x := JS.or_else (Point2D.x point) 0%Qc in
    let y := (JS.or_else (Point2D.y point) height - height)%Qc in
    {| Fold.x := x; Fold.y := y; Fold.angle := atan2 y x |}
  else if String.eqb corner "br" then
    let x := (JS.or_else (Point2D.x point) width - width)%Qc in
    let y := (JS.or_else (Point2D.y point) height - height)%Qc in
    {| Fold.x := x; Fold.y := y; Fold.angle := atan2 y x |}
  else {| Fold.x := 0%Qc; Fold.y := 0%Qc; Fold.angle := 0%Qc |}.

(** [private applyFoldTransform(wrapper, fold)] *)
Definition applyFoldTransform (acceleration : bool)
    (wrapper : WrapperStyle.t) (fold : Fold.t) : WrapperStyle.t :=
  let origin := Point2D.mk (Fold.x fold) (Fold.y fold) in
  let rotation := (Fold.angle fold * JS.ofZ 180 / PI)%Qc in
  WrapperStyle.with_transform (Some origin)
    (WrapperStyle.rotate rotation acceleration)
    (WrapperStyle.transition wrapper) wrapper.

(** [private startFlip(corner)] *)
Definition startFlip (corner : string) (s : state) : state :=
  if disabled (data s) || negb (bool_decide (pageMv (data s) = [])) then s
  else
    let view := view s in
    match (if includes_r corner then head view else last view) with
    | None => s
    | Some page =>
        match pageWrap (data s) !! page with
        | None => s
        | Some wrapper =>
            let nextPage := if includes_r corner then page + 1 else page - 1 in
            if (nextPage <? 1) || (nextPage >? totalPages (data s)) then s
            else
              let s := with_pageMv [page] s in
              let wrapper :=
                WrapperStyle.with_visibility WrapperStyle.visible
                  (WrapperStyle.with_zIndex (Some (totalPages (data s)))
                     wrapper) in
              let width := getPageWidth s in
              let height := offsetHeight s in
              let initialFold :=
                calculateFoldPosition corner (Point2D.mk 0 0) width height in
              let wrapper :=
                applyFoldTransform (LeafOptions.acceleration (options s))
                  wrapper initialFold in
              let s := with_pageWrap (<[page := wrapper]> (pageWrap (data s))) s in
              dispatchEvent (flipStart page corner) s
        end
    end.

(** [private updateFlip(point)] *)
Definition updateFlip (point : Point2D.t) (s : state) : state :=
  match pageMv (data s) with
  | [] => s
  | page :: _ =>
      match pageWrap (data s) !! page with
      | None => s
      | Some wrapper =>
          let width := getPageWidth s in
          let height := offsetHeight s in
          match detectCorner s point with
          | None => s
          | Some corner =>
              let fold := calculateFoldPosition corner point width height in
              let wrapper :=
                applyFoldTransform (LeafOptions.acceleration (options s))
                  wrapper fold in
              let s := with_pageWrap (<[page := wrapper]> (pageWrap (data s))) s in
              dispatchEvent (flipMove page (JS.abs (Fold.x fold)) width) s
          end
      end
  end.

(** [private completeFlip()] *)
Definition completeFlip (s : state) : completion * state :=
  match pageMv (data s) with
  | [] => (Normal, s)
  | page :: _ =>
      match pageWrap (data s) !! page with
      | None => (Normal, s)
      | Some wrapper =>
          let duration :=
            match LeafOptions.duration (options s) with
            | Some d => JS.or_else d (JS.ofZ 600)
            | None => JS.ofZ 600
            end in
          let wrapper :=
            WrapperStyle.with_transform
              (WrapperStyle.transformOrigin wrapper)
              WrapperStyle.TransformNone (Some duration) wrapper in
          let s := with_pageWrap (<[page := wrapper]> (pageWrap (data s))) s in
          let nextPage :=
            if String.eqb (display (data s)) "double"
            then (if Z.rem page 2 =? 0 then page - 1 else page + 1)
            else page in
          let '(c, s) :=
            if (nextPage >=? 1) && (nextPage <=? totalPages (data s))
            then setPage nextPage s else (Normal, s) in
          match c with
          | Throw e => (Throw e, s)
          | Normal =>
              let s := with_pageMv [] s in
              let s := with_queues (events s) (timers s ++ [(page, duration)]) s in
              (Normal, dispatchEvent (flipComplete page) s)
          end
      end
  end.

(** The callback [completeFlip] hands to [setTimeout], run for the
    [k]-th pending timer: it clears the transition of the wrapper the
    flip animated. *)
Definition timeout (k : nat) (s : state) : state :=
  match timers s !! k with
  | None => s
  | Some (page, _) =>
      let wraps :=
        match pageWrap (data s) !! page with
        | None => pageWrap (data s)
        | Some wrapper =>
            <[page :=
                WrapperStyle.with_transform
                  (WrapperStyle.transformOrigin wrapper)
                  (WrapperStyle.transform wrapper) None wrapper]>
              (pageWrap (data s))
        end in
      with_queues (events s) (delete k (timers s)) (with_pageWrap wraps s)
  end.

(** [private handleStart(e)], on the point [getEventPoint(e)]. *)
Definition handleStart (point : Point2D.t) (s : state) : state :=
  if disabled (data s) then s
  else
    match detectCorner s point with
    | Some corner => startFlip corner s
    | None => s
    end.

(** [private handleMove(e)] *)
Definition handleMove (point : Point2D.t) (s : state) : state :=
  if disabled (data s) || bool_decide (pageMv (data s) = []) then s
  else updateFlip point s.

(** [private handleEnd()] *)
Definition handleEnd (s : state) : completion * state :=
  if disabled (data s) || bool_decide (pageMv (data s) = []) then (Normal, s)
  else completeFlip s.

(** The fields as [constructor(element, options)] initialises them,
    for an element of size [w] x [h]. *)
Definition fresh (opts : LeafOptions.t) (w h : Qc) : state :=
  {| options := opts;
     data :=
       {| pageObjs := ∅; pageWrap := ∅; pagePlace := ∅; pageMv := [];
          totalPages := 0;
          page :=
            match LeafOptions.page opts with
            | Some p => if p =? 0 then 1 else p
            | None => 1
            end;
          display :=
            match LeafOptions.display opts with
            | Some d => if String.eqb d "" then "double" else d
            | None => "double"
            end;
          disabled := false; done := false |};
     offsetWidth := w; offsetHeight := h;
     styleWidth := w; styleHeight := h;
     accelerated := false; events := []; timers := [] |}.

(** [private initialize()], for the children the element has;
    [has3d] and [isTouch] are what the host answers to the capability
    probes.  [inl] is the error thrown. *)
Definition initialize (has3d isTouch : bool) (children : list Element)
    (s : state) : Error + state :=
  let opts := options s in
  let styled (accel : bool) (s : state) : state :=
    {| options := options s; data := data s;
       offsetWidth := offsetWidth s; offsetHeight := offsetHeight s;
       styleWidth :=
         match LeafOptions.width opts with
         | Some v => JS.or_else v (offsetWidth s)
         | None => offsetWidth s
         end;
       styleHeight :=
         match LeafOptions.height opts with
         | Some v => JS.or_else v (offsetHeight s)
         | None => offsetHeight s
         end;
       accelerated := accel; events := events s; timers := timers s |} in
  let s := styled false s in
  let display0 :=
    match LeafOptions.display opts with
    | Some d => if String.eqb d "" then "double" else d
    | None => "double"
    end in
  match setDisplay display0 s with
  | (Throw e, _) => inl e
  | (Normal, s) =>
      let s :=
        styled (has3d && negb isTouch && LeafOptions.acceleration opts) s in
      let s :=
        foldl (fun s '(i, child) =>
                 addPage (Some child) (Some (Z.of_nat i + 1)) s)
              s (imap pair children) in
      let page0 :=
        match LeafOptions.page opts with
        | Some p => if p =? 0 then 1 else p
        | None => 1
        end in
      match setPage page0 s with
      | (Throw e, _) => inl e
      | (Normal, s) => inr (with_done true s)
      end
  end.

(** [constructor(element, options)], which ends with [initialize()]. *)
Definition create (opts : LeafOptions.t) (has3d isTouch : bool)
    (w h : Qc) (children : list Element) : Error + state :=
  initialize has3d isTouch children (fresh opts w h).

(** What can happen to an engine: a call of a public method, a pointer
    event, a timer, or a change of the element's layout. *)
Inductive action :=
| AddPage (element : option Element) (page : option Z)
| SetDisplay (display : string)
| SetPage (pageNumber : Z)
| Next
| Previous
| Destroy
| Start (point : Point2D.t)
| Move (point : Point2D.t)
| End_
| Timeout_ (k : nat)
| Layout (w h : Qc).

(** The state an action leaves behind, whether it returned or threw. *)
Definition step (a : action) (s : state) : state :=
  match a with
  | AddPage element page => addPage element page s
  | SetDisplay display => snd (setDisplay display s)
  | SetPage pageNumber => snd (setPage pageNumber s)
  | Next => snd (next s)
  | Previous => snd (previous s)
  | Destroy => destroy s
  | Start point => handleStart point s
  | Move point => handleMove point s
  | End_ => snd (handleEnd s)
  | Timeout_ k => timeout k s
  | Layout w h => with_layout w h s
  end.

Inductive reachable : state -> Prop :=
| reach_create opts has3d isTouch w h children s :
    create opts has3d isTouch w h children = inr s -> reachable s
| reach_step a s : reachable s -> reachable (step a s).

(** The motion set holds at most one page. *)
Definition oneDrag (s : state) : Prop :=
  (length (pageMv (data s)) <= 1)%nat.

End Engine.

(** The cursor is on a page of the book: between 1 and [totalPages], or
    on page 1 when the book has no page; the engine is enabled and its
    display mode is one of [displays]. *)
Definition cursorOk (s : state) : Prop :=
  1 <= page (data s) <= Z.max 1 (totalPages (data s))
  /\ 0 <= totalPages (data s)
  /\ disabled (data s) = false
  /\ In (display (data s)) displays.

(** The three page tables have the same keys, none above [totalPages],
    and [pagePlace] maps each key to itself. *)
Definition tablesOk (s : state) : Prop :=
  dom (pageObjs (data s)) = dom (pageWrap (data s))
  /\ dom (pagePlace (data s)) = dom (pageWrap (data s))
  /\ (forall k v, pagePlace (data s) !! k = Some v -> v = k)
  /\ (forall k, is_Some (pageWrap (data s) !! k) -> k <= totalPages (data s)).

(** The wrapper of [page] after the iteration of the loop of
    [updatePagesPosition] for that page. *)
Definition positioned (view : list Z) (display : string) (page : Z)
    (wrapper : WrapperStyle.t) : WrapperStyle.t :=
  if existsb (Z.eqb page) view then
    match pagePositions (if String.eqb display "double" then Z.rem page 2 else 0)
    with
    | None => wrapper
    | Some position =>
        let len (v : option Qc) :=
          match v with
          | None => WrapperStyle.auto
          | Some n => WrapperStyle.px n
          end in
        WrapperStyle.with_position
          (WrapperStyle.px (top position)) (len (left position))
          (len (right position)) (len (bottom position))
          (WrapperStyle.with_visibility WrapperStyle.visible wrapper)
    end
  else WrapperStyle.with_visibility WrapperStyle.hidden wrapper.

(** What [tablesOk] reads of a state. *)
Definition tables (s : state) : gset Z * gset Z * gmap Z Z * Z :=
  (dom (pageObjs (data s)), dom (pageWrap (data s)), pagePlace (data s),
   totalPages (data s)).

End TurnPage.

(** ** Facts about utils.ts *)

Section UtilsFacts.
Import Utils.

Lemma cubic_spec_source (a b c d t : Qc) :
  cubic_spec a b c d t =
  ((1 - t) * (1 - t) * (1 - t) * a + JS.ofZ 3 * t * (1 - t) * (1 - t) * b
   + JS.ofZ 3 * t * t * (1 - t) * c + t * t * t * d)%Qc.
Proof. unfold cubic_spec. simpl. ring. Qed.

Lemma round3_spec_source (v : Qc) :
  round3_spec v = (JS.round (v * JS.ofZ 1000) / JS.ofZ 1000)%Qc.
Proof.
  unfold round3_spec, JS.round. by rewrite (Qcmult_comm (JS.ofZ 1000) v).
Qed.

(** The point [bezier] computes on a cache miss is the one of the
    reference definition. *)
Lemma bezier_miss_spec (m : gmap (list Qc) Point2D.t) p1 p2 p3 p4 t :
  m !! bezierKey p1 p2 p3 p4 t = None ->
  bezier m p1 p2 p3 p4 t =
  (bezier_spec p1 p2 p3 p4 t,
   <[bezierKey p1 p2 p3 p4 t := bezier_spec p1 p2 p3 p4 t]> m).
Proof.
  intros Hmiss. unfold bezier. rewrite Hmiss. cbv zeta.
  assert (Hpt : forall a b c d e f g h,
    createPoint2D
      ((1 - t) * (1 - t) * (1 - t) * a + JS.ofZ 3 * t * (1 - t) * (1 - t) * b
       + JS.ofZ 3 * t * t * (1 - t) * c + t * t * t * d)%Qc
      ((1 - t) * (1 - t) * (1 - t) * e + JS.ofZ 3 * t * (1 - t) * (1 - t) * f
       + JS.ofZ 3 * t * t * (1 - t) * g + t * t * t * h)%Qc
    = {| Point2D.x := round3_spec (cubic_spec a b c d t);
         Point2D.y := round3_spec (cubic_spec e f g h t) |}).
  { intros. unfold createPoint2D.
    by rewrite !round3_spec_source, !cubic_spec_source. }
  unfold bezier_spec. by rewrite Hpt.
Qed.

Lemma bezierKey_inj p1 p2 p3 p4 t q1 q2 q3 q4 u :
  bezierKey p1 p2 p3 p4 t = bezierKey q1 q2 q3 q4 u ->
  p1 = q1 /\ p2 = q2 /\ p3 = q3 /\ p4 = q4 /\ t = u.
Proof.
  destruct p1, p2, p3, p4, q1, q2, q3, q4. unfold bezierKey; simpl.
  intros Heq. injection Heq as -> -> -> -> -> -> -> -> ->. done.
Qed.

Lemma bezier_preserves_sound m p1 p2 p3 p4 t :
  memo_sound m -> memo_sound (snd (bezier m p1 p2 p3 p4 t)).
Proof.
  intros Hm. destruct (m !! bezierKey p1 p2 p3 p4 t) as [c|] eqn:Hlk.
  - unfold bezier. by rewrite Hlk.
  - rewrite (bezier_miss_spec _ _ _ _ _ _ Hlk). simpl.
    intros q1 q2 q3 q4 u p Hq.
    destruct (decide (bezierKey p1 p2 p3 p4 t = bezierKey q1 q2 q3 q4 u))
      as [Heq|Hne].
    + rewrite Heq, lookup_insert_eq in Hq. injection Hq as <-.
      by destruct (bezierKey_inj _ _ _ _ _ _ _ _ _ _ Heq)
        as (-> & -> & -> & -> & ->).
    + rewrite lookup_insert_ne in Hq by done. by apply Hm.
Qed.

Lemma reachable_sound m : reachable m -> memo_sound m.
Proof.
  induction 1 as [|m p1 p2 p3 p4 t _ IH|m _ _].
  - intros ? ? ? ? ? ? Hlk. unfold initialMemo in Hlk.
    by rewrite lookup_empty in Hlk.
  - by apply bezier_preserves_sound.
  - intros ? ? ? ? ? ? Hlk. unfold clearMemoization in Hlk.
    by rewrite lookup_empty in Hlk.
Qed.

Lemma bezier_sound_spec m p1 p2 p3 p4 t :
  memo_sound m -> fst (bezier m p1 p2 p3 p4 t) = bezier_spec p1 p2 p3 p4 t.
Proof.
  intros Hm. destruct (m !! bezierKey p1 p2 p3 p4 t) as [c|] eqn:Hlk.
  - unfold bezier. rewrite Hlk. simpl. by apply Hm.
  - by rewrite (bezier_miss_spec _ _ _ _ _ _ Hlk).
Qed.


(** Rounding to thousandths leaves a whole number of thousandths alone. *)
Lemma Qfloor_half (z : Z) : Qfloor (JS.ofZ z + JS.frac 1 2)%Qc = z.
Proof.
  transitivity (Qfloor (inject_Z z + (1 # 2))%Q).
  - apply Qfloor_comp. unfold JS.ofZ, JS.frac. simpl.
    by rewrite !Qred_correct.
  - unfold Qfloor, inject_Z, Qplus. simpl.
    symmetry. apply (Z.div_unique _ _ _ 1); lia.
Qed.

Lemma thousand_nonzero : JS.ofZ 1000 <> 0%Qc.
Proof. intros Heq. by apply (f_equal this) in Heq. Qed.

Lemma round3_grid (z : Z) :
  round3_spec (JS.ofZ z / JS.ofZ 1000)%Qc = (JS.ofZ z / JS.ofZ 1000)%Qc.
Proof.
  unfold round3_spec.
  replace (JS.ofZ 1000 * (JS.ofZ z / JS.ofZ 1000))%Qc with (JS.ofZ z).
  - by rewrite Qfloor_half.
  - field. apply thousand_nonzero.
Qed.

Lemma createPoint2D_spec (x y : Qc) :
  createPoint2D x y =
  {| Point2D.x := round3_spec x; Point2D.y := round3_spec y |}.
Proof. unfold createPoint2D. by rewrite !round3_spec_source. Qed.

Lemma createPoint2D_grid (p : Point2D.t) :
  onGrid p -> createPoint2D (Point2D.x p) (Point2D.y p) = p.
Proof.
  intros (a & b & ->). rewrite createPoint2D_spec. simpl.
  by rewrite !round3_grid.
Qed.

Lemma cubic_spec_0 (a b c d : Qc) : cubic_spec a b c d 0%Qc = a.
Proof. rewrite cubic_spec_source. ring. Qed.

Lemma cubic_spec_1 (a b c d : Qc) : cubic_spec a b c d 1%Qc = d.
Proof. rewrite cubic_spec_source. ring. Qed.


(** C7, as the code has it.  At [t = 0] [bezier] returns the first
    control point rounded to three decimals by [createPoint2D], and at
    [t = 1] the last control point rounded likewise; the result is the
    control point itself when its coordinates are whole thousandths. *)
Theorem bezier_endpoints_rounded (m : gmap (list Qc) Point2D.t)
    (p1 p2 p3 p4 : Point2D.t) :
  reachable m ->
  fst (bezier m p1 p2 p3 p4 0%Qc)
    = createPoint2D (Point2D.x p1) (Point2D.y p1)
  /\ fst (bezier m p1 p2 p3 p4 1%Qc)
    = createPoint2D (Point2D.x p4) (Point2D.y p4)
  /\ (onGrid p1 -> fst (bezier m p1 p2 p3 p4 0%Qc) = p1)
  /\ (onGrid p4 -> fst (bezier m p1 p2 p3 p4 1%Qc) = p4).
Proof.
  intros Hm. pose proof (reachable_sound _ Hm) as Hs.
  assert (H0 : fst (bezier m p1 p2 p3 p4 0%Qc)
               = createPoint2D (Point2D.x p1) (Point2D.y p1)).
  { rewrite bezier_sound_spec, createPoint2D_spec by done.
    unfold bezier_spec. by rewrite !cubic_spec_0. }
  assert (H1 : fst (bezier m p1 p2 p3 p4 1%Qc)
               = createPoint2D (Point2D.x p4) (Point2D.y p4)).
  { rewrite bezier_sound_spec, createPoint2D_spec by done.
    unfold bezier_spec. by rewrite !cubic_spec_1. }
  repeat split; try done.
  - intros Hg. rewrite H0. by apply createPoint2D_grid.
  - intros Hg. rewrite H1. by apply createPoint2D_grid.
Qed.

End UtilsFacts.

(** ** Worked examples: a host, a surface and a book *)

Module Examples.

(** A host to evaluate the engines on.  [PI] is the rational the double
    [Math.PI] holds.  The examples evaluate [atan2], [cos] and [sin] at
    the angle 0 only, where this host is exact ([atan2(0, 0) = 0],
    [cos(0) = 1], [sin(0) = 0]); [sqrt] is exact on the squares of
    integers. *)
Definition host : MathHost :=
  {| PI := JS.frac 884279719003555 281474976710656;
     atan2 := fun _ _ => 0%Qc;
     cos := fun _ => 1%Qc;
     sin := fun _ => 0%Qc;
     sqrt := fun v => JS.ofZ (Z.sqrt (Qfloor v)) |}.

(** A 300 x 400 surface with the default options, and the same with
    [corners: 'backward']. *)
Definition surface : FlipPage.state :=
  default (FlipPage.fresh FlipPage.defaultFlipOptions (JS.ofZ 300) (JS.ofZ 400))
    (@FlipPage.create host true FlipPage.defaultFlipOptions
       (JS.ofZ 300) (JS.ofZ 400)).



Definition blankPage : TurnPage.Element :=
  {| TurnPage.elWidth := None; TurnPage.elHeight := None |}.

(** The book of the README: four pages in an 800 x 600 element, default
    options (double display, first page 1). *)
Definition book4 : TurnPage.state :=
  match TurnPage.create TurnPage.defaultLeafOptions true false
          (JS.ofZ 800) (JS.ofZ 600) (replicate 4 blankPage) with
  | inr s => s
  | inl _ => TurnPage.fresh TurnPage.defaultLeafOptions (JS.ofZ 800) (JS.ofZ 600)
  end.



(** The book while its first page is dragged from the top right corner,
    and the surface while it is turned from there. *)
Definition draggedBook : TurnPage.state :=
  @TurnPage.step host
    (TurnPage.Start (Point2D.mk (JS.ofZ 790) (JS.ofZ 10))) book4.

Definition turningSurface : FlipPage.state :=
  @FlipPage.step host
    (FlipPage.Start (Point2D.mk (JS.ofZ 290) (JS.ofZ 10))) surface.

(** Control points of a curve; the first one is off the grid of
    thousandths ([1/4096] is a double). *)
Definition origin : Point2D.t := Point2D.mk 0 0.
Definition fine : Point2D.t := Point2D.mk (JS.frac 1 4096) 0.
Definition coarse : Point2D.t := Point2D.mk (JS.frac 1 8) (JS.ofZ 2).

(** An 800 x 600 surface with all four corners and a zone of 50, the
    same surface with a zone of 0, and the book in single mode. *)
Definition allOptions : FlipPage.FlipOptions :=
  {| FlipPage.corners := Some "all";
     FlipPage.cornerSize := Some (JS.ofZ 50);
     FlipPage.gradients := true; FlipPage.duration := JS.ofZ 600;
     FlipPage.acceleration := false |}.

Definition allSurface : FlipPage.state :=
  default (FlipPage.fresh allOptions (JS.ofZ 800) (JS.ofZ 600))
    (@FlipPage.create host true allOptions (JS.ofZ 800) (JS.ofZ 600)).

Definition deadOptions : FlipPage.FlipOptions :=
  {| FlipPage.corners := Some "all";
     FlipPage.cornerSize := Some 0%Qc;
     FlipPage.gradients := true; FlipPage.duration := JS.ofZ 600;
     FlipPage.acceleration := false |}.

Definition deadSurface : FlipPage.state :=
  default (FlipPage.fresh deadOptions (JS.ofZ 800) (JS.ofZ 600))
    (@FlipPage.create host true deadOptions (JS.ofZ 800) (JS.ofZ 600)).

Definition singleBook : TurnPage.state :=
  snd (TurnPage.setDisplay "single" book4).

End Examples.

(** ** Facts about the corner detectors *)

Section CornerFacts.
Import FlipPage.





End CornerFacts.

(** ** Facts about the single-surface engine *)

Section FlipFacts.
Import FlipPage.
Context `{MathHost}.

Lemma handleStart_turning (pt : Point2D.t) (s : state) :
  isTurning s = true -> handleStart pt s = s.
Proof. intros Ht. unfold handleStart. by rewrite Ht, orb_true_r. Qed.




(** C8 fails on the code.  With acceleration the transform is
    [matrix3d] applied to eleven numbers, the six of the 2D form followed
    by [0,0,0,0,1]: not sixteen, so not a 4x4 matrix, while the 2D form
    denotes the matrix [extended]. *)
Theorem transformOf_accelerated_arity (fold : Point2D.t) (angle : Qc) :
  transformOf true fold angle
    = Matrix3d (foldMatrix fold angle ++ [0; 0; 0; 0; 1]%Qc)
  /\ length (foldMatrix fold angle ++ [0; 0; 0; 0; 1]%Qc) = 11%nat
  /\ denote (transformOf true fold angle) = None
  /\ denote (transformOf false fold angle) = Some (extended fold angle).
Proof. unfold transformOf, foldMatrix, extended. simpl. auto. Qed.

End FlipFacts.

(** ** Facts about the pagination engine: pages and views *)

Section PageFacts.
Import TurnPage.

Lemma updatePagesPosition_data (s : state) :
  page (data (updatePagesPosition s)) = page (data s)
  /\ display (data (updatePagesPosition s)) = display (data s)
  /\ totalPages (data (updatePagesPosition s)) = totalPages (data s)
  /\ pageMv (data (updatePagesPosition s)) = pageMv (data s)
  /\ done (data (updatePagesPosition s)) = done (data s)
  /\ events (updatePagesPosition s) = events s.
Proof. by unfold updatePagesPosition. Qed.

(** What a call of [setPage] inside the range does to the cursor. *)
Lemma setPage_in_range (s : state) (p : Z) :
  1 <= p <= totalPages (data s) ->
  fst (setPage p s) = Normal
  /\ page (data (snd (setPage p s))) = p
  /\ display (data (snd (setPage p s))) = display (data s)
  /\ totalPages (data (snd (setPage p s))) = totalPages (data s)
  /\ pageMv (data (snd (setPage p s))) = pageMv (data s).
Proof.
  intros Hp. unfold setPage.
  destruct ((p <? 1) || (p >? totalPages (data s))) eqn:Hout.
  - apply orb_true_iff in Hout as [Hlt|Hgt]; lia.
  - destruct (page (data s) =? p) eqn:Hsame; simpl; [|done].
    apply Z.eqb_eq in Hsame. done.
Qed.

Lemma setPage_pageMv (s : state) (n : Z) :
  pageMv (data (snd (setPage n s))) = pageMv (data s).
Proof. unfold setPage. by repeat case_match. Qed.

Lemma view_single (s : state) :
  display (data s) <> "double" -> page (data s) <> 0 ->
  view s = [page (data s)].
Proof.
  intros Hd Hp. unfold view.
  apply String.eqb_neq in Hd. apply Z.eqb_neq in Hp. by rewrite Hd, Hp.
Qed.

Lemma view_double (s : state) :
  display (data s) = "double" -> 1 <= page (data s) ->
  view s = if Z.odd (page (data s))
           then [page (data s); page (data s) + 1]
           else [page (data s) - 1; page (data s)].
Proof.
  intros Hd Hp. unfold view. rewrite Hd. simpl.
  destruct (page (data s) =? 0) eqn:H0; [lia|].
  rewrite Z.rem_mod_nonneg by lia.
  rewrite Zodd_mod.
  pose proof (Z.mod_pos_bound (page (data s)) 2 ltac:(lia)) as Hb.
  destruct (page (data s) mod 2 =? 0) eqn:Hm; simpl.
  - apply Z.eqb_eq in Hm. by rewrite Hm.
  - apply Z.eqb_neq in Hm.
    by replace (page (data s) mod 2) with 1 by lia.
Qed.

(** C1.  For a page [p] between 1 and [totalPages], [setPage(p)]
    returns, [p] is the current page and [view()] contains it: the view
    is [[p]] in single mode; in double mode it is [[p, p+1]] when [p] is
    odd and [[p-1, p]] when [p] is even, so a pair of adjacent pages that
    starts with an odd one. *)
Theorem setPage_view (s : state) (p : Z) :
  1 <= p <= totalPages (data s) ->
  fst (setPage p s) = Normal
  /\ page (data (snd (setPage p s))) = p
  /\ In p (view (snd (setPage p s)))
  /\ (display (data s) = "single" -> view (snd (setPage p s)) = [p])
  /\ (display (data s) = "double" ->
      (Z.odd p = true -> view (snd (setPage p s)) = [p; p + 1])
      /\ (Z.even p = true -> view (snd (setPage p s)) = [p - 1; p])
      /\ exists a, Z.odd a = true /\ view (snd (setPage p s)) = [a; a + 1]).
Proof.
  intros Hp.
  destruct (setPage_in_range s p Hp) as (Hn & Hpg & Hd & _ & _).
  set (s' := snd (setPage p s)) in *.
  assert (Hsingle : display (data s) <> "double" -> view s' = [p]).
  { intros Hne. rewrite view_single; rewrite ?Hpg, ?Hd; [done|done|lia]. }
  assert (Hdouble : display (data s) = "double" ->
                    view s' = if Z.odd p then [p; p + 1] else [p - 1; p]).
  { intros He. rewrite view_double; rewrite ?Hpg, ?Hd; [done|done|lia]. }
  split; [done|]. split; [done|]. split; [|split].
  - destruct (decide (display (data s) = "double")) as [He|Hne].
    + rewrite (Hdouble He). destruct (Z.odd p); simpl; auto.
    + rewrite (Hsingle Hne). simpl; auto.
  - intros He. apply Hsingle. by rewrite He.
  - intros He. rewrite (Hdouble He). split; [|split].
    + by intros ->.
    + intros Hev. rewrite <- Z.negb_even, Hev. done.
    + destruct (Z.odd p) eqn:Hodd.
      * by exists p.
      * exists (p - 1). split; [|by replace (p - 1 + 1) with p by lia].
        rewrite Z.odd_sub, Hodd. done.
Qed.


Lemma setDisplay_display (s : state) (mode : string) :
  JS.includes displays mode = true ->
  fst (setDisplay mode s) = Normal
  /\ display (data (snd (setDisplay mode s))) = mode.
Proof.
  intros Hin. unfold setDisplay. rewrite Hin. simpl.
  destruct (String.eqb (display (data s)) mode) eqn:Hsame; simpl.
  - by apply String.eqb_eq in Hsame.
  - by destruct (done (data s)).
Qed.

Lemma setDisplay_events (s : state) (mode : string) :
  events (snd (setDisplay mode s)) = events s
  \/ events (snd (setDisplay mode s))
     = events s ++ [displayChanged (display (data s)) mode].
Proof.
  unfold setDisplay. repeat case_match; simpl; auto.
Qed.

Lemma setDisplay_pageMv (s : state) (mode : string) :
  pageMv (data (snd (setDisplay mode s))) = pageMv (data s).
Proof. unfold setDisplay. by repeat case_match. Qed.

Lemma includes_displays (mode : string) :
  In mode displays -> JS.includes displays mode = true.
Proof.
  intros Hin. unfold JS.includes. apply existsb_exists.
  exists mode. split; [done|]. apply String.eqb_refl.
Qed.

(** C9.  [setDisplay] is idempotent.  With a valid mode, the first call
    returns and dispatches at most one [displayChanged]; a second call
    with the same mode returns without changing anything: same state,
    hence no further notification. *)
Theorem setDisplay_idempotent (s : state) (mode : string) :
  In mode displays ->
  fst (setDisplay mode s) = Normal
  /\ setDisplay mode (snd (setDisplay mode s))
     = (Normal, snd (setDisplay mode s))
  /\ (events (snd (setDisplay mode (snd (setDisplay mode s)))) = events s
      \/ events (snd (setDisplay mode (snd (setDisplay mode s))))
         = events s ++ [displayChanged (display (data s)) mode]).
Proof.
  intros Hin. apply includes_displays in Hin.
  destruct (setDisplay_display s mode Hin) as [Hn Hd].
  assert (Hagain : setDisplay mode (snd (setDisplay mode s))
                   = (Normal, snd (setDisplay mode s))).
  { unfold setDisplay at 1. rewrite Hin, Hd, String.eqb_refl. done. }
  split; [done|]. split; [done|].
  rewrite Hagain. simpl. apply setDisplay_events.
Qed.

Lemma next_unfold (s : state) (a b : Z) :
  view s = [a; b] -> a <= b -> b + 1 <= totalPages (data s) ->
  next s = setPage (b + 1) s.
Proof.
  intros Hv Hab Hb. unfold next. rewrite Hv. simpl.
  rewrite Z.max_r by lia.
  destruct (b + 1 <=? totalPages (data s)) eqn:Hle; [done|lia].
Qed.

Lemma previous_unfold (s : state) (a b : Z) :
  view s = [a; b] -> a <= b -> 1 <= a - 1 ->
  previous s = setPage (a - 1) s.
Proof.
  intros Hv Hab Ha. unfold previous. rewrite Hv. simpl.
  rewrite Z.min_l by lia.
  destruct (a - 1 >=? 1) eqn:Hge; [done|lia].
Qed.

(** C2, as the code has it.  In double mode with four pages and the
    cursor on page 1: the view is [[1, 2]]; [next()] moves the cursor to
    page 3, view [[3, 4]]; [previous()] then moves the cursor to page 2,
    the page before the least of the view, and the view is [[1, 2]]
    again. *)
Theorem double_spread_navigation (s : state) :
  display (data s) = "double" ->
  totalPages (data s) = 4 ->
  page (data s) = 1 ->
  view s = [1; 2]
  /\ fst (next s) = Normal
  /\ page (data (snd (next s))) = 3
  /\ view (snd (next s)) = [3; 4]
  /\ fst (previous (snd (next s))) = Normal
  /\ page (data (snd (previous (snd (next s))))) = 2
  /\ view (snd (previous (snd (next s)))) = [1; 2].
Proof.
  intros Hd Ht Hp.
  assert (Hv : view s = [1; 2]) by (rewrite view_double, Hp; [done|done|lia]).
  assert (Hnext : next s = setPage 3 s) by (apply (next_unfold s 1 2); lia || done).
  destruct (setPage_in_range s 3 ltac:(lia)) as (Hn1 & Hp1 & Hd1 & Ht1 & _).
  rewrite Hnext. set (s1 := snd (setPage 3 s)) in *.
  assert (Hv1 : view s1 = [3; 4]).
  { rewrite view_double, Hp1; [done| congruence |lia]. }
  assert (Hprev : previous s1 = setPage 2 s1)
    by (apply (previous_unfold s1 3 4); lia || done).
  destruct (setPage_in_range s1 2 ltac:(lia)) as (Hn2 & Hp2 & Hd2 & _ & _).
  rewrite Hprev. set (s2 := snd (setPage 2 s1)) in *.
  assert (Hv2 : view s2 = [1; 2]).
  { rewrite view_double, Hp2; [done| congruence |lia]. }
  done.
Qed.

End PageFacts.

(** ** Facts about fold sessions *)

Section SessionFacts.
Context `{MathHost}.

(** *** The pagination engine: the motion set *)

Import TurnPage.

Lemma addPage_pageMv element pg (s : state) :
  pageMv (data (addPage element pg s)) = pageMv (data s).
Proof. unfold addPage. by repeat case_match. Qed.

Lemma startFlip_busy (corner : string) (s : state) :
  pageMv (data s) <> [] -> startFlip corner s = s.
Proof.
  intros Hbusy. unfold startFlip.
  rewrite bool_decide_eq_false_2 by done. simpl.
  by rewrite orb_true_r.
Qed.

Lemma startFlip_oneDrag (corner : string) (s : state) :
  oneDrag s -> oneDrag (startFlip corner s).
Proof.
  unfold oneDrag, startFlip. intros Hs.
  repeat case_match; simpl; try done; lia.
Qed.

Lemma updateFlip_pageMv (pt : Point2D.t) (s : state) :
  pageMv (data (updateFlip pt s)) = pageMv (data s).
Proof. unfold updateFlip. by repeat case_match. Qed.

Lemma completeFlip_oneDrag (s : state) :
  oneDrag s -> oneDrag (snd (completeFlip s)).
Proof.
  unfold oneDrag, completeFlip. intros Hs.
  destruct (pageMv (data s)) as [|pg mv] eqn:Hmv; [simpl; by rewrite Hmv|].
  destruct (pageWrap (data s) !! pg) as [wrapper|];
    [|simpl; by rewrite Hmv].
  match goal with
  | |- context [if ?c then setPage ?n ?t else _] =>
      destruct c; [destruct (setPage n t) as [[|e] t'] eqn:Hsp|]
  end; simpl; try lia.
  match goal with
  | Hsp : setPage ?n ?t = _ |- _ =>
      pose proof (setPage_pageMv t n) as Hset; rewrite Hsp in Hset
  end.
  simpl in Hset. by rewrite Hset, Hmv.
Qed.

Lemma timeout_pageMv (k : nat) (s : state) :
  pageMv (data (timeout k s)) = pageMv (data s).
Proof. unfold timeout. by repeat case_match. Qed.

Lemma handleStart_busy (pt : Point2D.t) (s : state) :
  pageMv (data s) <> [] -> handleStart pt s = s.
Proof.
  intros Hbusy. unfold handleStart.
  repeat case_match; try done. by apply startFlip_busy.
Qed.

Lemma step_oneDrag (a : action) (s : state) :
  oneDrag s -> oneDrag (step a s).
Proof.
  intros Hs. destruct a; unfold step.
  - unfold oneDrag. by rewrite addPage_pageMv.
  - unfold oneDrag. by rewrite setDisplay_pageMv.
  - unfold oneDrag. by rewrite setPage_pageMv.
  - unfold next. repeat case_match; try done.
    unfold oneDrag. by rewrite setPage_pageMv.
  - unfold previous. repeat case_match; try done.
    unfold oneDrag. by rewrite setPage_pageMv.
  - unfold oneDrag, destroy. simpl. lia.
  - unfold handleStart. repeat case_match; try done.
    by apply startFlip_oneDrag.
  - unfold handleMove. case_match; [done|].
    unfold oneDrag. by rewrite updateFlip_pageMv.
  - unfold handleEnd. case_match; [done|]. by apply completeFlip_oneDrag.
  - unfold oneDrag. by rewrite timeout_pageMv.
  - done.
Qed.

Lemma addPages_pageMv (children : list (nat * Element)) (s : state) :
  pageMv (data (foldl (fun s '(i, child) =>
                         addPage (Some child) (Some (Z.of_nat i + 1)) s)
                      s children))
  = pageMv (data s).
Proof.
  revert s. induction children as [|[i child] l IH]; intros s; [done|].
  change (foldl ?f s ((i, child) :: l))
    with (foldl f (addPage (Some child) (Some (Z.of_nat i + 1)) s) l).
  rewrite IH. apply addPage_pageMv.
Qed.

Lemma initialize_pageMv has3d isTouch children (s s' : state) :
  initialize has3d isTouch children s = inr s' ->
  pageMv (data s') = pageMv (data s).
Proof.
  unfold initialize. cbv zeta. intros Hi.
  destruct (setDisplay _ _) as [[|e] s1] eqn:Hsd; [|done].
  destruct (setPage _ _) as [[|e] s2] eqn:Hsp; [|done].
  injection Hi as <-.
  apply (f_equal (fun r => pageMv (data (snd r)))) in Hsp, Hsd.
  rewrite setPage_pageMv, addPages_pageMv in Hsp.
  rewrite setDisplay_pageMv in Hsd.
  simpl in *. congruence.
Qed.

Lemma create_idle opts has3d isTouch w h children (s : state) :
  create opts has3d isTouch w h children = inr s -> pageMv (data s) = [].
Proof.
  unfold create. intros Hc. by rewrite (initialize_pageMv _ _ _ _ _ Hc).
Qed.

Lemma reachable_oneDrag (s : state) : reachable s -> oneDrag s.
Proof.
  induction 1 as [opts has3d isTouch w h children s Hc|a s _ IH].
  - unfold oneDrag. rewrite (create_idle _ _ _ _ _ _ _ Hc). simpl. lia.
  - by apply step_oneDrag.
Qed.

End SessionFacts.

Section FlipSessionFacts.
Context `{MathHost}.
Import FlipPage.

Lemma sessionInv_open (s : state) pt :
  isTurning s = true -> point s = Some pt -> sessionInv s.
Proof. intros Ht Hp. unfold sessionInv. rewrite Ht, Hp. by split. Qed.

Lemma sessionInv_closed (s : state) :
  isTurning s = false -> point s = None -> sessionInv s.
Proof.
  intros Ht Hp. unfold sessionInv. rewrite Ht, Hp.
  split; [done|]. by intros [? ?].
Qed.

Lemma sessionInv_same (s s' : state) :
  isTurning s' = isTurning s -> point s' = point s ->
  sessionInv s -> sessionInv s'.
Proof. unfold sessionInv. by intros -> ->. Qed.

Lemma updateFlip_session (pt : Point2D.t) (s : state) :
  isTurning (updateFlip pt s) = isTurning s
  /\ point (updateFlip pt s) = point s.
Proof. unfold updateFlip. by repeat case_match. Qed.

Lemma step_sessionInv (a : action) (s : state) :
  sessionInv s -> sessionInv (step a s).
Proof.
  intros Hs. destruct a; unfold step.
  - unfold handleStart.
    destruct (isDisabled s || isTurning s); [done|].
    destruct (detectCorner s pt) as [corner|]; [|done].
    by apply (sessionInv_open _ (pt, corner)).
  - unfold handleMove. repeat case_match; try done.
    destruct (updateFlip_session pt s). by eapply sessionInv_same.
  - unfold handleEnd. repeat case_match; try done.
    by apply sessionInv_closed.
  - unfold flip.
    destruct (isDisabled s || isTurning s); [done|].
    destruct (getDefaultCornerPoint s corner) as [p|]; [|done].
    match goal with
    | |- sessionInv (updateFlip ?p ?t) =>
        destruct (updateFlip_session p t) as [Ht Hp];
        apply (sessionInv_open _ (p, corner)); by rewrite ?Ht, ?Hp
    end.
  - by eapply sessionInv_same.
  - by eapply sessionInv_same.
  - by eapply sessionInv_same.
  - unfold timeout. by repeat case_match.
  - by eapply sessionInv_same.
Qed.

Lemma reachable_sessionInv (s : state) : reachable s -> sessionInv s.
Proof.
  induction 1 as [opts w h s Hc|a s _ IH].
  - unfold create, setupWrapper in Hc. simpl in Hc. injection Hc as <-.
    by apply sessionInv_closed.
  - by apply step_sessionInv.
Qed.

End FlipSessionFacts.

Section OneSession.
Context `{MathHost}.

(** C6.  In every reachable state at most one fold session is active.
    The motion set of the pagination engine holds no page or one page,
    and while it holds one, [startFlip] (and the start handler that calls
    it) changes nothing.  The single-surface engine is turning exactly
    when it holds its one session point, and while it is turning its
    start handler changes nothing. *)
Theorem one_fold_session (ts : TurnPage.state) (fs : FlipPage.state) :
  TurnPage.reachable ts -> FlipPage.reachable fs ->
  (length (TurnPage.pageMv (TurnPage.data ts)) <= 1)%nat
  /\ (TurnPage.pageMv (TurnPage.data ts) <> [] ->
      forall corner, TurnPage.startFlip corner ts = ts)
  /\ (TurnPage.pageMv (TurnPage.data ts) <> [] ->
      forall pt, TurnPage.handleStart pt ts = ts)
  /\ (FlipPage.isTurning fs = true <-> is_Some (FlipPage.point fs))
  /\ (FlipPage.isTurning fs = true ->
      forall pt, FlipPage.handleStart pt fs = fs).
Proof.
  intros Hts Hfs. split; [|split; [|split; [|split]]].
  - by apply reachable_oneDrag.
  - intros Hbusy corner. by apply startFlip_busy.
  - intros Hbusy pt. by apply handleStart_busy.
  - by apply reachable_sessionInv.
  - intros Hturning pt. by apply handleStart_turning.
Qed.

End OneSession.

(** ** The worked examples, evaluated *)

Section Evaluated.
Import Examples.

Lemma book4_created :
  TurnPage.create TurnPage.defaultLeafOptions true false
    (JS.ofZ 800) (JS.ofZ 600) (replicate 4 blankPage) = inr book4.
Proof. vm_compute. reflexivity. Qed.

Lemma surface_created :
  @FlipPage.create host true FlipPage.defaultFlipOptions
    (JS.ofZ 300) (JS.ofZ 400) = Some surface.
Proof. vm_compute. reflexivity. Qed.

Lemma book4_cursor :
  TurnPage.display (TurnPage.data book4) = "double"
  /\ TurnPage.totalPages (TurnPage.data book4) = 4
  /\ TurnPage.page (TurnPage.data book4) = 1.
Proof. vm_compute. auto. Qed.

Lemma draggedBook_reachable : @TurnPage.reachable host draggedBook.
Proof.
  apply TurnPage.reach_step. eapply TurnPage.reach_create, book4_created.
Qed.

Lemma turningSurface_reachable : @FlipPage.reachable host turningSurface.
Proof.
  apply FlipPage.reach_step. eapply FlipPage.reach_create, surface_created.
Qed.

(** C1 at page 4 of the four-page book. *)
Lemma setPage_view_page4 :
  1 <= 4 <= TurnPage.totalPages (TurnPage.data book4)
  /\ TurnPage.page (TurnPage.data (snd (TurnPage.setPage 4 book4))) = 4
  /\ TurnPage.view (snd (TurnPage.setPage 4 book4)) = [3; 4].
Proof.
  destruct book4_cursor as (Hd & Ht & _).
  assert (Hrange : 1 <= 4 <= TurnPage.totalPages (TurnPage.data book4))
    by (rewrite Ht; lia).
  destruct (setPage_view book4 4 Hrange) as (_ & Hp & _ & _ & Hdouble).
  destruct (Hdouble Hd) as (_ & Heven & _).
  split; [exact Hrange|]. split; [exact Hp|]. exact (Heven eq_refl).
Defined.

(** C2 as stated fails: after [next()] and [previous()] the cursor of the
    four-page double-mode book is on page 2, not on page 1. *)
Lemma previous_lands_on_page2 :
  TurnPage.display (TurnPage.data book4) = "double"
  /\ TurnPage.totalPages (TurnPage.data book4) = 4
  /\ TurnPage.page (TurnPage.data book4) = 1
  /\ TurnPage.page (TurnPage.data (snd (TurnPage.next book4))) = 3
  /\ TurnPage.page
       (TurnPage.data (snd (TurnPage.previous (snd (TurnPage.next book4)))))
     = 2.
Proof. vm_compute. auto. Qed.

Lemma double_spread_navigation_book4 :
  TurnPage.view book4 = [1; 2]
  /\ fst (TurnPage.next book4) = TurnPage.Normal
  /\ TurnPage.page (TurnPage.data (snd (TurnPage.next book4))) = 3
  /\ TurnPage.view (snd (TurnPage.next book4)) = [3; 4]
  /\ fst (TurnPage.previous (snd (TurnPage.next book4))) = TurnPage.Normal
  /\ TurnPage.page
       (TurnPage.data (snd (TurnPage.previous (snd (TurnPage.next book4)))))
     = 2
  /\ TurnPage.view (snd (TurnPage.previous (snd (TurnPage.next book4))))
     = [1; 2].
Proof.
  destruct book4_cursor as (Hd & Ht & Hp).
  exact (double_spread_navigation book4 Hd Ht Hp).
Defined.






(** C6 in mid-session: a page of the book is being dragged and the
    surface is being turned. *)
Lemma one_fold_session_mid_drag :
  TurnPage.pageMv (TurnPage.data draggedBook) = [1]
  /\ FlipPage.isTurning turningSurface = true
  /\ @TurnPage.startFlip host "br" draggedBook = draggedBook
  /\ FlipPage.handleStart (Point2D.mk (JS.ofZ 5) (JS.ofZ 5)) turningSurface
     = turningSurface.
Proof.
  pose proof (@one_fold_session host draggedBook turningSurface
                draggedBook_reachable turningSurface_reachable)
    as (_ & Hstart & _ & _ & Hturn).
  assert (Hmv : TurnPage.pageMv (TurnPage.data draggedBook) = [1])
    by (vm_compute; reflexivity).
  assert (Ht : FlipPage.isTurning turningSurface = true)
    by (vm_compute; reflexivity).
  split; [exact Hmv|]. split; [exact Ht|]. split.
  - apply Hstart. rewrite Hmv. discriminate.
  - apply Hturn. exact Ht.
Defined.

(** C7 as stated fails: the first control point [(1/4096, 0)] is not
    what [bezier] returns at [t = 0]. *)
Lemma bezier_start_is_rounded :
  fst (Utils.bezier Utils.initialMemo fine origin origin coarse 0%Qc)
    = origin
  /\ origin <> fine.
Proof. compute_done. Qed.

Lemma bezier_endpoints_rounded_coarse :
  Utils.reachable Utils.initialMemo
  /\ Utils.onGrid coarse
  /\ fst (Utils.bezier Utils.initialMemo fine origin origin coarse 1%Qc)
     = coarse
  /\ fst (Utils.bezier Utils.initialMemo fine origin origin coarse 0%Qc)
     = Utils.createPoint2D (Point2D.x fine) (Point2D.y fine).
Proof.
  assert (Hgrid : Utils.onGrid coarse).
  { exists 125, 2000. compute_done. }
  pose proof (bezier_endpoints_rounded Utils.initialMemo fine origin origin
                coarse Utils.reach_init) as (H0 & _ & _ & H1).
  split; [exact Utils.reach_init|]. split; [exact Hgrid|].
  split; [exact (H1 Hgrid)|exact H0].
Defined.

(** C8 on the surface: the accelerated transform of a flip from the top
    right corner. *)
Lemma accelerated_transform_of_flip :
  FlipPage.acceleration (FlipPage.options surface) = true
  /\ FlipPage.fpageTransform (@FlipPage.flip host "tr" surface)
     = FlipPage.Matrix3d
         [1; 0; 0; 1; 0; JS.ofZ 400; 0; 0; 0; 0; 1]%Qc
  /\ FlipPage.denote
       (FlipPage.fpageTransform (@FlipPage.flip host "tr" surface)) = None.
Proof. compute_done. Qed.

(** C9 on the book: the display is set to single twice. *)
Lemma setDisplay_idempotent_single :
  In "single" TurnPage.displays
  /\ TurnPage.setDisplay "single" (snd (TurnPage.setDisplay "single" book4))
     = (TurnPage.Normal, snd (TurnPage.setDisplay "single" book4))
  /\ TurnPage.events
       (snd (TurnPage.setDisplay "single"
               (snd (TurnPage.setDisplay "single" book4))))
     = [TurnPage.displayChanged "double" "single"].
Proof.
  assert (Hin : In "single" TurnPage.displays) by (left; reflexivity).
  pose proof (setDisplay_idempotent book4 "single" Hin) as (_ & Hagain & _).
  split; [exact Hin|]. split; [exact Hagain|].
  rewrite Hagain. vm_compute. reflexivity.
Defined.


End Evaluated.


(** ** More about utils.ts: rounding, the curve and the cache *)

Section UtilsMore.
Import Utils.














Lemma round3_spec_grid (v : Qc) :
  exists z : Z, round3_spec v = (JS.ofZ z / JS.ofZ 1000)%Qc.
Proof. by eexists. Qed.


Lemma transform_cons (a : string) (l : list string) :
  l <> [] -> transform (a :: l) = (a ++ " " ++ transform l)%string.
Proof. by destruct l. Qed.

Lemma string_app_assoc (a b c : string) :
  ((a ++ b) ++ c)%string = (a ++ (b ++ c))%string.
Proof.
  induction a as [|ch a IH]; [done|].
  change (String ch ((a ++ b) ++ c) = String ch (a ++ b ++ c))%string.
  by f_equal.
Qed.

Lemma string_app_assoc3 (a b c d : string) :
  ((a ++ b ++ c) ++ d)%string = (a ++ b ++ c ++ d)%string.
Proof. by rewrite !string_app_assoc. Qed.

(** X1.  [createPoint2D] is a projection: applied to the coordinates of a
    point it made, it returns that point. *)
Theorem createPoint2D_idempotent (a b : Qc) :
  createPoint2D (Point2D.x (createPoint2D a b)) (Point2D.y (createPoint2D a b))
  = createPoint2D a b.
Proof.
  rewrite !createPoint2D_spec. simpl.
  destruct (round3_spec_grid a) as [za ->].
  destruct (round3_spec_grid b) as [zb ->].
  by rewrite !round3_grid.
Qed.



(** X4.  Whatever the arguments, the point [bezier] returns has
    coordinates that are whole thousandths, so [createPoint2D] maps it to
    itself. *)
Theorem bezier_on_grid (m : gmap (list Qc) Point2D.t)
    (p1 p2 p3 p4 : Point2D.t) (t : Qc) :
  reachable m ->
  onGrid (fst (bezier m p1 p2 p3 p4 t))
  /\ createPoint2D (Point2D.x (fst (bezier m p1 p2 p3 p4 t)))
                   (Point2D.y (fst (bezier m p1 p2 p3 p4 t)))
     = fst (bezier m p1 p2 p3 p4 t).
Proof.
  intros Hm.
  assert (Hg : onGrid (fst (bezier m p1 p2 p3 p4 t))).
  { rewrite bezier_sound_spec by by apply reachable_sound.
    unfold bezier_spec.
    destruct (round3_spec_grid (cubic_spec (Point2D.x p1) (Point2D.x p2)
                                  (Point2D.x p3) (Point2D.x p4) t)) as [a ->].
    destruct (round3_spec_grid (cubic_spec (Point2D.y p1) (Point2D.y p2)
                                  (Point2D.y p3) (Point2D.y p4) t)) as [b ->].
    by exists a, b. }
  split; [done|]. by apply createPoint2D_grid.
Qed.


(** X6.  After a call the cache holds the returned point under the key
    of the arguments; every other key holds what it held before, so no
    entry is ever evicted or overwritten. *)
Theorem bezier_records (m : gmap (list Qc) Point2D.t)
    (p1 p2 p3 p4 : Point2D.t) (t : Qc) :
  snd (bezier m p1 p2 p3 p4 t) !! bezierKey p1 p2 p3 p4 t
    = Some (fst (bezier m p1 p2 p3 p4 t))
  /\ (forall k, k <> bezierKey p1 p2 p3 p4 t ->
                snd (bezier m p1 p2 p3 p4 t) !! k = m !! k)
  /\ (forall k p, m !! k = Some p ->
                  snd (bezier m p1 p2 p3 p4 t) !! k = Some p).
Proof.
  destruct (m !! bezierKey p1 p2 p3 p4 t) as [c|] eqn:Hlk.
  - unfold bezier. rewrite Hlk. simpl. auto.
  - rewrite (bezier_miss_spec _ _ _ _ _ _ Hlk). simpl.
    split; [by rewrite lookup_insert_eq|]. split.
    + intros k Hk. by rewrite lookup_insert_ne.
    + intros k p Hp. rewrite lookup_insert_ne; [done|]. congruence.
Qed.


(** X8.  [transform] joins with single spaces, so joining two non-empty
    groups of transforms separately and then together is joining them
    all at once. *)
Theorem transform_nested (xs ys : list string) :
  xs <> [] -> ys <> [] ->
  transform [transform xs; transform ys] = transform (xs ++ ys).
Proof.
  intros Hxs Hys. change (transform [transform xs; transform ys])
    with (transform xs ++ " " ++ transform ys)%string.
  induction xs as [|a xs IH]; [done|].
  destruct xs as [|b xs].
  - change (a ++ " " ++ transform ys = transform (a :: ys))%string.
    by rewrite transform_cons.
  - rewrite (transform_cons a (b :: xs)) by done.
    change ((a :: b :: xs) ++ ys) with (a :: ((b :: xs) ++ ys)).
    rewrite (transform_cons a ((b :: xs) ++ ys)) by done.
    rewrite <- IH by done. apply string_app_assoc3.
Qed.

End UtilsMore.


(** ** More about the single-surface engine *)

Section FlipMore.
Import FlipPage.
Context `{MathHost}.

Lemma updateFlip_frame (q : Point2D.t) (s : state) :
  isTurning (updateFlip q s) = isTurning s
  /\ isDisabled (updateFlip q s) = isDisabled s
  /\ point (updateFlip q s) = point s
  /\ events (updateFlip q s) = events s
  /\ timers (updateFlip q s) = timers s
  /\ options (updateFlip q s) = options s
  /\ fpageTransition (updateFlip q s) = fpageTransition s.
Proof. unfold updateFlip. by repeat case_match. Qed.

Lemma moves_frame (qs : list Point2D.t) (s : state) :
  isTurning (foldl (fun s q => handleMove q s) s qs) = isTurning s
  /\ point (foldl (fun s q => handleMove q s) s qs) = point s
  /\ events (foldl (fun s q => handleMove q s) s qs) = events s
  /\ timers (foldl (fun s q => handleMove q s) s qs) = timers s
  /\ options (foldl (fun s q => handleMove q s) s qs) = options s.
Proof.
  revert s. induction qs as [|q qs IH]; intros s; [done|].
  change (foldl ?f s (q :: qs)) with (foldl f (handleMove q s) qs).
  destruct (IH (handleMove q s)) as (-> & -> & -> & -> & ->).
  unfold handleMove.
  destruct (point s) eqn:Hp; [|by rewrite Hp].
  destruct (negb (isTurning s)); [by rewrite Hp|].
  by destruct (updateFlip_frame q s) as (-> & _ & -> & -> & -> & -> & _).
Qed.

Lemma truthy_50 : JS.truthy (JS.ofZ 50) = true.
Proof. reflexivity. Qed.

(** X9.  With [corners: 'all'] and a zone of 50 the single-surface
    detector is the detector of the pagination engine: on elements of the
    same size the two return the same corner for every point. *)
Theorem detectors_agree (fs : state) (ts : TurnPage.state) (pt : Point2D.t) :
  corners (options fs) = Some "all" ->
  cornerSize (options fs) = Some (JS.ofZ 50) ->
  offsetWidth fs = TurnPage.offsetWidth ts ->
  offsetHeight fs = TurnPage.offsetHeight ts ->
  detectCorner fs pt = TurnPage.detectCorner ts pt.
Proof.
  intros Hc Hz Hw Hh. unfold detectCorner, TurnPage.detectCorner.
  rewrite Hc, Hz, Hw, Hh, truthy_50.
  change (allowedCorners (Some "all")) with ["tl"; "bl"; "tr"; "br"].
  change (JS.includes ["tl"; "bl"; "tr"; "br"] "tl") with true.
  change (JS.includes ["tl"; "bl"; "tr"; "br"] "tr") with true.
  change (JS.includes ["tl"; "bl"; "tr"; "br"] "bl") with true.
  change (JS.includes ["tl"; "bl"; "tr"; "br"] "br") with true.
  cbn [negb]. by rewrite !andb_true_r.
Qed.

(** X10.  A zone size that is absent or zero switches detection off: no
    point is in a corner, so a pointer start changes nothing. *)
Theorem detectCorner_no_zone (s : state) (pt : Point2D.t) :
  cornerSize (options s) = None \/ cornerSize (options s) = Some 0%Qc ->
  detectCorner s pt = None /\ handleStart pt s = s.
Proof.
  intros Hz.
  assert (Hd : detectCorner s pt = None).
  { unfold detectCorner. by destruct Hz as [-> | ->]. }
  split; [done|]. unfold handleStart. rewrite Hd. by destruct (_ || _).
Qed.

(** X11.  [getDefaultCornerPoint] knows the four corner names and no
    other string, and [flip] with any other string changes nothing. *)
Theorem flip_unknown_corner (s : state) (c : string) :
  (is_Some (getDefaultCornerPoint s c) <-> In c ["tl"; "tr"; "bl"; "br"])
  /\ (getDefaultCornerPoint s c = None -> flip c s = s).
Proof.
  split.
  - unfold getDefaultCornerPoint.
    destruct (String.eqb c "tl") eqn:E1;
      [apply String.eqb_eq in E1; subst; split; [simpl; auto|by eexists]|].
    destruct (String.eqb c "tr") eqn:E2;
      [apply String.eqb_eq in E2; subst; split; [simpl; auto|by eexists]|].
    destruct (String.eqb c "bl") eqn:E3;
      [apply String.eqb_eq in E3; subst; split; [simpl; auto|by eexists]|].
    destruct (String.eqb c "br") eqn:E4;
      [apply String.eqb_eq in E4; subst; split; [simpl; auto|by eexists]|].
    apply String.eqb_neq in E1, E2, E3, E4.
    split; [by intros [? ?]|]. simpl. intuition congruence.
  - intros Hn. unfold flip. rewrite Hn. by destruct (_ || _).
Qed.

(** X12.  A whole drag.  On an enabled, idle engine a start in a corner,
    any number of moves and an end leave the engine idle again with no
    session point: exactly [flipstart] and [flipend] were dispatched, the
    transform is reset to [none] under a transition of the configured
    duration (600 when it is 0), and one timer is pending; when that timer
    fires the transition is cleared and no timer of the drag is left. *)
Theorem drag_cycle (s : state) (pt : Point2D.t) (c : string)
    (qs : list Point2D.t) :
  isDisabled s = false -> isTurning s = false ->
  detectCorner s pt = Some c ->
  isTurning (handleEnd (foldl (fun s q => handleMove q s) (handleStart pt s) qs))
    = false
  /\ point (handleEnd (foldl (fun s q => handleMove q s) (handleStart pt s) qs))
     = None
  /\ events (handleEnd (foldl (fun s q => handleMove q s) (handleStart pt s) qs))
     = events s ++ [flipstart pt c; flipend]
  /\ fpageTransform
       (handleEnd (foldl (fun s q => handleMove q s) (handleStart pt s) qs))
     = TransformNone
  /\ fpageTransition
       (handleEnd (foldl (fun s q => handleMove q s) (handleStart pt s) qs))
     = Some (JS.or_else (duration (options s)) (JS.ofZ 600))
  /\ timers (handleEnd (foldl (fun s q => handleMove q s) (handleStart pt s) qs))
     = timers s ++ [JS.or_else (duration (options s)) (JS.ofZ 600)]
  /\ fpageTransition
       (timeout (length (timers s))
          (handleEnd (foldl (fun s q => handleMove q s) (handleStart pt s) qs)))
     = None
  /\ timers
       (timeout (length (timers s))
          (handleEnd (foldl (fun s q => handleMove q s) (handleStart pt s) qs)))
     = timers s.
Proof.
  intros Hd Ht Hc.
  assert (Hs : handleStart pt s
               = dispatchEvent (flipstart pt c)
                   (with_session (Some (pt, c)) true s)).
  { unfold handleStart. by rewrite Hd, Ht, Hc. }
  destruct (moves_frame qs (handleStart pt s)) as (Mt & Mp & Me & Mm & Mo).
  set (s1 := foldl _ _ qs) in *.
  rewrite Hs in Mt, Mp, Me, Mm, Mo. simpl in Mt, Mp, Me, Mm, Mo.
  assert (He : handleEnd s1
               = dispatchEvent flipend
                   (with_session None false
                      (completeFlip (with_session (Some (pt, c)) false s1)))).
  { unfold handleEnd. by rewrite Mp, Mt. }
  rewrite He. unfold completeFlip, dispatchEvent. simpl.
  rewrite Mo, Me, Mm.
  set (d := JS.or_else (duration (options s)) (JS.ofZ 600)).
  assert (Hlk : (timers s ++ [d]) !! length (timers s) = Some d)
    by by apply list_lookup_middle.
  split; [done|]. split; [done|]. split; [by rewrite <- app_assoc|].
  split; [done|]. split; [done|]. split; [done|].
  unfold timeout. simpl. rewrite Hlk. simpl.
  split; [done|]. by rewrite delete_middle, app_nil_r.
Qed.

(** X13.  Disabling does not abort a turn in progress: [disable]
    commutes with the move and end handlers.  A disabled engine ignores
    every start and every [flip]. *)
Theorem disable_mid_turn (s : state) (b : bool) (q : Point2D.t) :
  handleMove q (disable b s) = disable b (handleMove q s)
  /\ handleEnd (disable b s) = disable b (handleEnd s)
  /\ handleStart q (disable true s) = disable true s
  /\ (forall c, flip c (disable true s) = disable true s).
Proof.
  destruct s as [o w h p t d tr ti sh ws at_ ev tm].
  split; [|split; [|split]].
  - unfold handleMove, disable, updateFlip, applyTransform. simpl.
    destruct p as [[start corner]|]; [|done]. by destruct t.
  - unfold handleEnd, disable. simpl.
    destruct p as [[start corner]|]; [|done]. by destruct t.
  - done.
  - done.
Qed.


End FlipMore.


(** ** More about the pagination engine: the cursor *)

Section CursorFacts.
Import TurnPage.
Context `{MathHost}.

(** What no call of [setPage] touches. *)
Lemma setPage_frame (n : Z) (s : state) :
  display (data (snd (setPage n s))) = display (data s)
  /\ totalPages (data (snd (setPage n s))) = totalPages (data s)
  /\ disabled (data (snd (setPage n s))) = disabled (data s)
  /\ done (data (snd (setPage n s))) = done (data s)
  /\ timers (snd (setPage n s)) = timers s
  /\ options (snd (setPage n s)) = options s.
Proof. unfold setPage. by repeat case_match. Qed.

Lemma setPage_rejects (n : Z) (s : state) :
  n < 1 \/ totalPages (data s) < n ->
  setPage n s = (Throw (InvalidPageNumber n), s).
Proof.
  intros Hout. unfold setPage.
  destruct ((n <? 1) || (n >? totalPages (data s))) eqn:Hb; [done|].
  apply orb_false_iff in Hb as [Hlt Hgt]. lia.
Qed.

(** How [setPage] can end. *)
Lemma setPage_cases (n : Z) (s : state) :
  (setPage n s = (Throw (InvalidPageNumber n), s)
   /\ (n < 1 \/ totalPages (data s) < n))
  \/ (fst (setPage n s) = Normal /\ 1 <= n <= totalPages (data s)
      /\ page (data (snd (setPage n s))) = n).
Proof.
  destruct (decide (1 <= n <= totalPages (data s))) as [Hin|Hout].
  - right. by destruct (setPage_in_range s n Hin) as (? & ? & _).
  - left. split; [apply setPage_rejects|]; lia.
Qed.

Lemma setPage_cursorOk (n : Z) (s : state) :
  cursorOk s -> cursorOk (snd (setPage n s)).
Proof.
  intros (Hp & Ht & Hd & Hm). unfold cursorOk.
  destruct (setPage_frame n s) as (-> & -> & -> & _).
  destruct (setPage_cases n s) as [[-> _]|(_ & Hn & ->)]; [done|].
  repeat split; try done; lia.
Qed.

(** The shapes a view has when the cursor is on a page. *)
Lemma view_cases (s : state) :
  1 <= page (data s) ->
  view s = [page (data s)]
  \/ exists a, view s = [a; a + 1] /\ 1 <= a <= page (data s)
               /\ page (data s) <= a + 1.
Proof.
  intros Hp. destruct (decide (display (data s) = "double")) as [Hd|Hd].
  - right. rewrite (view_double s Hd Hp).
    destruct (Z.odd (page (data s))) eqn:Hodd.
    + exists (page (data s)). split; [done|lia].
    + exists (page (data s) - 1).
      split; [by replace (page (data s) - 1 + 1) with (page (data s)) by lia|].
      assert (page (data s) <> 1) by (intros Heq; by rewrite Heq in Hodd).
      lia.
  - left. apply view_single; [done|lia].
Qed.

Lemma next_cursorOk (s : state) :
  cursorOk s -> fst (next s) = Normal /\ cursorOk (snd (next s)).
Proof.
  intros Hs. pose proof Hs as ((Hp1 & Hp2) & Ht & _).
  unfold next.
  destruct (view_cases s Hp1) as [Hv|(a & Hv & Ha1 & Ha2)]; rewrite Hv; simpl.
  - destruct (page (data s) + 1 <=? totalPages (data s)) eqn:Hle; [|done].
    split; [|by apply setPage_cursorOk].
    destruct (setPage_cases (page (data s) + 1) s) as [[_ Hout]|[Hn _]];
      [lia|done].
  - rewrite Z.max_r by lia.
    destruct (a + 1 + 1 <=? totalPages (data s)) eqn:Hle; [|done].
    split; [|by apply setPage_cursorOk].
    destruct (setPage_cases (a + 1 + 1) s) as [[_ Hout]|[Hn _]]; [lia|done].
Qed.

Lemma previous_cursorOk (s : state) :
  cursorOk s -> fst (previous s) = Normal /\ cursorOk (snd (previous s)).
Proof.
  intros Hs. pose proof Hs as ((Hp1 & Hp2) & Ht & _).
  unfold previous.
  destruct (view_cases s Hp1) as [Hv|(a & Hv & Ha1 & Ha2)]; rewrite Hv; simpl.
  - destruct (page (data s) - 1 >=? 1) eqn:Hge; [|done].
    split; [|by apply setPage_cursorOk].
    destruct (setPage_cases (page (data s) - 1) s) as [[_ Hout]|[Hn _]];
      [lia|done].
  - rewrite Z.min_l by lia.
    destruct (a - 1 >=? 1) eqn:Hge; [|done].
    split; [|by apply setPage_cursorOk].
    destruct (setPage_cases (a - 1) s) as [[_ Hout]|[Hn _]]; [lia|done].
Qed.

Lemma setDisplay_cursorOk (mode : string) (s : state) :
  cursorOk s -> cursorOk (snd (setDisplay mode s)).
Proof.
  intros (Hp & Ht & Hd & Hm). unfold setDisplay.
  destruct (JS.includes displays mode) eqn:Hin; [|done]. simpl.
  destruct (String.eqb (display (data s)) mode) eqn:Hsame; [done|].
  assert (Hmode : In mode displays).
  { unfold JS.includes in Hin. apply existsb_exists in Hin as (m & Hm' & Heq).
    apply String.eqb_eq in Heq. by subst. }
  by destruct (done (data s)).
Qed.

Lemma addPage_cursorOk element pg (s : state) :
  cursorOk s -> cursorOk (addPage element pg s).
Proof.
  intros (Hp & Ht & Hd & Hm). unfold addPage, cursorOk.
  destruct element; [|done]. simpl.
  repeat case_match; repeat split; try done; lia.
Qed.

Lemma startFlip_cursor (corner : string) (s : state) :
  page (data (startFlip corner s)) = page (data s)
  /\ totalPages (data (startFlip corner s)) = totalPages (data s)
  /\ disabled (data (startFlip corner s)) = disabled (data s)
  /\ display (data (startFlip corner s)) = display (data s).
Proof. unfold startFlip. by repeat case_match. Qed.

Lemma updateFlip_cursor (pt : Point2D.t) (s : state) :
  page (data (updateFlip pt s)) = page (data s)
  /\ totalPages (data (updateFlip pt s)) = totalPages (data s)
  /\ disabled (data (updateFlip pt s)) = disabled (data s)
  /\ display (data (updateFlip pt s)) = display (data s).
Proof. unfold updateFlip. by repeat case_match. Qed.

Lemma timeout_cursor (k : nat) (s : state) :
  page (data (timeout k s)) = page (data s)
  /\ totalPages (data (timeout k s)) = totalPages (data s)
  /\ disabled (data (timeout k s)) = disabled (data s)
  /\ display (data (timeout k s)) = display (data s).
Proof. unfold timeout. by repeat case_match. Qed.

Lemma cursorOk_same (s s' : state) :
  page (data s') = page (data s)
  /\ totalPages (data s') = totalPages (data s)
  /\ disabled (data s') = disabled (data s)
  /\ display (data s') = display (data s) ->
  cursorOk s -> cursorOk s'.
Proof. unfold cursorOk. by intros (-> & -> & -> & ->). Qed.

Lemma completeFlip_cursorOk (s : state) :
  cursorOk s ->
  fst (completeFlip s) = Normal /\ cursorOk (snd (completeFlip s)).
Proof.
  intros Hs. unfold completeFlip.
  destruct (pageMv (data s)) as [|pg mv]; [done|].
  destruct (pageWrap (data s) !! pg) as [wrapper|]; [|done].
  match goal with
  | |- context [if ?c then setPage ?n ?t else _] =>
      assert (Ht : cursorOk t) by done;
      set (n' := n) in *; set (t' := t) in *; clearbody n' t'
  end.
  pose proof (setPage_cursorOk n' t' Ht) as Hok.
  destruct ((n' >=? 1) && (n' <=? totalPages (data t'))) eqn:Hc; [|done].
  apply andb_prop in Hc as [Hlo Hhi].
  destruct (setPage_cases n' t') as [[Hthrow Hout]|(Hn & Hin & _)]; [lia|].
  destruct (setPage n' t') as [[|e] t''] eqn:Hsp; [done|done].
Qed.

Lemma step_cursorOk (a : action) (s : state) :
  cursorOk s -> cursorOk (step a s).
Proof.
  intros Hs. destruct a; unfold step.
  - by apply addPage_cursorOk.
  - by apply setDisplay_cursorOk.
  - by apply setPage_cursorOk.
  - by apply next_cursorOk.
  - by apply previous_cursorOk.
  - unfold cursorOk, destroy, displays. simpl. intuition lia.
  - unfold handleStart. repeat case_match; try done.
    eapply cursorOk_same; [apply startFlip_cursor|done].
  - unfold handleMove. case_match; [done|].
    eapply cursorOk_same; [apply updateFlip_cursor|done].
  - unfold handleEnd. case_match; [done|]. by apply completeFlip_cursorOk.
  - eapply cursorOk_same; [apply timeout_cursor|done].
  - done.
Qed.

Lemma addPages_total (children : list (nat * Element)) (s : state) :
  0 <= totalPages (data s) ->
  0 <= totalPages
         (data (foldl (fun s '(i, child) =>
                         addPage (Some child) (Some (Z.of_nat i + 1)) s)
                      s children)).
Proof.
  revert s. induction children as [|[i child] l IH]; intros s Hs; [done|].
  change (foldl ?f s ((i, child) :: l))
    with (foldl f (addPage (Some child) (Some (Z.of_nat i + 1)) s) l).
  apply IH. unfold addPage. simpl. repeat case_match; lia.
Qed.

Lemma setDisplay_normal (mode : string) (s s' : state) :
  setDisplay mode s = (Normal, s') ->
  In (display (data s')) displays
  /\ disabled (data s') = disabled (data s)
  /\ totalPages (data s') = totalPages (data s)
  /\ page (data s') = page (data s).
Proof.
  unfold setDisplay. intros Hsd.
  destruct (JS.includes displays mode) eqn:Hin; [|done].
  assert (Hmode : In mode displays).
  { unfold JS.includes in Hin. apply existsb_exists in Hin as (m & Hm & Heq).
    apply String.eqb_eq in Heq. by subst. }
  simpl in Hsd.
  destruct (String.eqb (display (data s)) mode) eqn:Hsame.
  - injection Hsd as <-. apply String.eqb_eq in Hsame. by rewrite Hsame.
  - injection Hsd as <-. by destruct (done (data s)).
Qed.

Lemma addPages_cursor (children : list (nat * Element)) (s : state) :
  disabled (data (foldl (fun s '(i, child) =>
                           addPage (Some child) (Some (Z.of_nat i + 1)) s)
                        s children)) = disabled (data s)
  /\ display (data (foldl (fun s '(i, child) =>
                             addPage (Some child) (Some (Z.of_nat i + 1)) s)
                          s children)) = display (data s)
  /\ page (data (foldl (fun s '(i, child) =>
                          addPage (Some child) (Some (Z.of_nat i + 1)) s)
                       s children)) = page (data s).
Proof.
  revert s. induction children as [|[i child] l IH]; intros s; [done|].
  change (foldl ?f s ((i, child) :: l))
    with (foldl f (addPage (Some child) (Some (Z.of_nat i + 1)) s) l).
  by destruct (IH (addPage (Some child) (Some (Z.of_nat i + 1)) s))
    as (-> & -> & ->).
Qed.

Lemma initialize_cursorOk has3d isTouch children (s s' : state) :
  totalPages (data s) = 0 -> disabled (data s) = false ->
  initialize has3d isTouch children s = inr s' -> cursorOk s'.
Proof.
  unfold initialize. cbv zeta. intros Ht Hd Hi.
  destruct (setDisplay _ _) as [[|e] s1] eqn:Hsd; [|done].
  destruct (setPage _ _) as [[|e] s2] eqn:Hsp; [|done].
  injection Hi as <-.
  apply setDisplay_normal in Hsd as (Hdisp & Hdis & Htot & _).
  simpl in Hdis, Htot.
  match type of Hsp with
  | setPage ?n ?t = _ =>
      destruct (setPage_cases n t) as [[Hthrow _]|(_ & Hin & Hpg)];
        [by rewrite Hthrow in Hsp|];
      destruct (setPage_frame n t) as (Hfd & Hft & Hfdis & _);
      rewrite Hsp in Hpg, Hfd, Hft, Hfdis; cbn [snd] in Hpg, Hfd, Hft, Hfdis
  end.
  match type of Hfd with
  | _ = display (data (foldl _ ?t ?l)) =>
      destruct (addPages_cursor l t) as (Hadis & Hadisp & _);
      pose proof (addPages_total l t) as Hatot
  end.
  unfold cursorOk, with_done. cbn [data page totalPages disabled display with_data with_cursor].
  rewrite Hpg, Hft, Hfdis, Hfd, Hadis, Hadisp.
  cbn [data disabled display].
  split; [lia|]. split; [apply Hatot; cbn [data]; lia|].
  split; [congruence|done].
Qed.

Lemma create_cursorOk opts has3d isTouch w h children (s : state) :
  create opts has3d isTouch w h children = inr s -> cursorOk s.
Proof. unfold create. by apply initialize_cursorOk. Qed.

End CursorFacts.

Section NavigationFacts.
Import TurnPage.
Context `{MathHost}.

Lemma reachable_cursorOk (s : state) : reachable s -> cursorOk s.
Proof.
  induction 1 as [opts has3d isTouch w h children s Hc|a s _ IH].
  - by eapply create_cursorOk.
  - by apply step_cursorOk.
Qed.

Lemma setPage_moves (s : state) (n : Z) :
  1 <= n <= totalPages (data s) -> n <> page (data s) ->
  setPage n s
  = (Normal,
     dispatchEvent (pageChanged (page (data s)) n)
       (updatePagesPosition (with_page n s))).
Proof.
  intros Hn Hne. unfold setPage.
  destruct ((n <? 1) || (n >? totalPages (data s))) eqn:Hout.
  - apply orb_true_iff in Hout as [?|?]; lia.
  - destruct (page (data s) =? n) eqn:Hsame; [|done].
    apply Z.eqb_eq in Hsame. congruence.
Qed.

Lemma setPage_stays (s : state) :
  1 <= page (data s) <= totalPages (data s) ->
  setPage (page (data s)) s = (Normal, s).
Proof.
  intros Hn. unfold setPage.
  destruct ((page (data s) <? 1) || (page (data s) >? totalPages (data s)))
    eqn:Hout.
  - apply orb_true_iff in Hout as [?|?]; lia.
  - by rewrite Z.eqb_refl.
Qed.


(** X17.  In a reachable state the navigation calls and the end handler
    never throw: [next()], [previous()] and [handleEnd()] return. *)
Theorem navigation_never_throws (s : state) :
  reachable s ->
  fst (next s) = Normal /\ fst (previous s) = Normal
  /\ fst (handleEnd s) = Normal.
Proof.
  intros Hr. pose proof (reachable_cursorOk s Hr) as Hs.
  split; [by apply next_cursorOk|]. split; [by apply previous_cursorOk|].
  unfold handleEnd. case_match; [done|]. by apply completeFlip_cursorOk.
Qed.

(** X18.  Stepping in single mode.  With the cursor on a page of the
    book, [next()] moves to the following page and announces it, and
    does nothing on the last page; [previous()] moves to the page before,
    and does nothing on page 1. *)
Theorem single_mode_stepping (s : state) :
  display (data s) = "single" ->
  1 <= page (data s) <= totalPages (data s) ->
  (page (data s) < totalPages (data s) ->
   page (data (snd (next s))) = page (data s) + 1
   /\ events (snd (next s))
      = events s ++ [pageChanged (page (data s)) (page (data s) + 1)])
  /\ (page (data s) = totalPages (data s) -> next s = (Normal, s))
  /\ (1 < page (data s) ->
      page (data (snd (previous s))) = page (data s) - 1
      /\ events (snd (previous s))
         = events s ++ [pageChanged (page (data s)) (page (data s) - 1)])
  /\ (page (data s) = 1 -> previous s = (Normal, s)).
Proof.
  intros Hd Hp.
  assert (Hv : view s = [page (data s)]).
  { apply view_single; [by rewrite Hd|lia]. }
  unfold next, previous. rewrite Hv. simpl.
  split; [|split; [|split]].
  - intros Hlt.
    destruct (page (data s) + 1 <=? totalPages (data s)) eqn:Hle; [|lia].
    by rewrite setPage_moves by lia.
  - intros Heq.
    destruct (page (data s) + 1 <=? totalPages (data s)) eqn:Hle; [lia|done].
  - intros Hgt.
    destruct (page (data s) - 1 >=? 1) eqn:Hge; [|lia].
    by rewrite setPage_moves by lia.
  - intros Heq.
    destruct (page (data s) - 1 >=? 1) eqn:Hge; [lia|done].
Qed.

(** X19.  Stepping in double mode.  With the spread [[a, a+1]] in view,
    [next()] shows the spread [[a+2, a+3]] when page [a+2] exists and
    does nothing otherwise; [previous()] shows [[a-2, a-1]] when [a] is
    at least 3 and does nothing on the first spread.  A [next()] that
    moved, followed by [previous()], shows the first spread again. *)
Theorem double_mode_stepping (s : state) (a : Z) :
  display (data s) = "double" ->
  1 <= page (data s) <= totalPages (data s) ->
  view s = [a; a + 1] ->
  (a + 2 <= totalPages (data s) ->
   page (data (snd (next s))) = a + 2
   /\ view (snd (next s)) = [a + 2; a + 3]
   /\ view (snd (previous (snd (next s)))) = [a; a + 1])
  /\ (totalPages (data s) < a + 2 -> next s = (Normal, s))
  /\ (3 <= a ->
      page (data (snd (previous s))) = a - 1
      /\ view (snd (previous s)) = [a - 2; a - 1])
  /\ (a < 3 -> previous s = (Normal, s)).
Proof.
  intros Hd Hp Hv.
  assert (Ha : Z.odd a = true /\ a <= page (data s) <= a + 1).
  { rewrite (view_double s Hd) in Hv by lia.
    destruct (Z.odd (page (data s))) eqn:Hodd; injection Hv as Hv.
    - rewrite <- Hv. split; [done|lia].
    - rewrite <- Hv. split; [|lia].
      by rewrite Z.odd_sub, Hodd. }
  destruct Ha as [Hodd Hrange].
  assert (Hview : forall t n, display (data t) = "double" -> page (data t) = n ->
                  1 <= n -> Z.odd n = true -> view t = [n; n + 1]).
  { intros t n Htd Htp Hn Hno. rewrite view_double, Htp, Hno; [done|done|lia]. }
  assert (Hview' : forall t n, display (data t) = "double" ->
                   page (data t) = n -> 2 <= n -> Z.odd n = false ->
                   view t = [n - 1; n]).
  { intros t n Htd Htp Hn Hno. rewrite view_double, Htp, Hno; [done|done|lia]. }
  assert (Ha1 : 1 <= a).
  { destruct (decide (a = 0)) as [->|]; [done|lia]. }
  split; [|split; [|split]].
  - intros Hle.
    assert (Hnext : next s = setPage (a + 2) s).
    { rewrite (next_unfold s a (a + 1) Hv) by lia. f_equal. lia. }
    rewrite Hnext.
    destruct (setPage_in_range s (a + 2) ltac:(lia)) as (_ & Hp1 & Hd1 & Ht1 & _).
    set (s1 := snd (setPage (a + 2) s)) in *.
    assert (Hv1 : view s1 = [a + 2; a + 3]).
    { rewrite (Hview s1 (a + 2)); [f_equal; f_equal; lia|congruence|done|lia|].
      by rewrite Z.odd_add, Hodd. }
    split; [done|]. split; [done|].
    assert (Hprev : previous s1 = setPage (a + 1) s1).
    { rewrite (previous_unfold s1 (a + 2) (a + 3) Hv1) by lia. f_equal. lia. }
    rewrite Hprev.
    destruct (setPage_in_range s1 (a + 1) ltac:(lia)) as (_ & Hp2 & Hd2 & _).
    rewrite (Hview' _ (a + 1)); [f_equal; lia|congruence|done|lia|].
    by rewrite Z.odd_add, Hodd.
  - intros Hgt. unfold next. rewrite Hv. simpl.
    rewrite Z.max_r by lia.
    destruct (a + 1 + 1 <=? totalPages (data s)) eqn:Hle; [lia|done].
  - intros Hge.
    assert (Hprev : previous s = setPage (a - 1) s)
      by (apply (previous_unfold s a (a + 1) Hv); lia).
    rewrite Hprev.
    destruct (setPage_in_range s (a - 1) ltac:(lia)) as (_ & Hp1 & Hd1 & _).
    split; [done|].
    rewrite (Hview' _ (a - 1)); [f_equal; lia|congruence|done|lia|].
    by rewrite Z.odd_sub, Hodd.
  - intros Hlt. unfold previous. rewrite Hv. simpl.
    rewrite Z.min_l by lia.
    destruct (a - 1 >=? 1) eqn:Hge; [|done].
    assert (a = 2) as -> by lia. done.
Qed.

(** X20.  [setPage] announces exactly the changes.  A call for another
    page of the book dispatches one [pageChanged] with the old and the new
    page and leaves the page count, the display mode and the motion set
    alone; a call for the current page changes nothing at all. *)
Theorem setPage_notifies (s : state) (n : Z) :
  1 <= n <= totalPages (data s) ->
  (n <> page (data s) ->
   events (snd (setPage n s)) = events s ++ [pageChanged (page (data s)) n]
   /\ totalPages (data (snd (setPage n s))) = totalPages (data s)
   /\ display (data (snd (setPage n s))) = display (data s)
   /\ pageMv (data (snd (setPage n s))) = pageMv (data s))
  /\ (n = page (data s) -> setPage n s = (Normal, s)).
Proof.
  intros Hn. split.
  - intros Hne. by rewrite setPage_moves.
  - intros ->. by apply setPage_stays.
Qed.

End NavigationFacts.

(** ** More about both engines: input points, notifications, teardown *)

Section EngineFacts.
Context `{MathHost}.

(** X15.  The two engines read a pointer event the same way.  The point
    is the client position relative to the element's rectangle, so it
    does not change when the element and the pointer are shifted
    together; of a touch event only the first touch is read, as if it
    were the mouse; a touch event without touches gives the origin. *)
Theorem getPoint_relative (rect : Pointer.DOMRect) (e : Pointer.Event)
    (t : Pointer.Client) (ts : list Pointer.Client) (dx dy : Qc) :
  FlipPage.getPoint rect e = TurnPage.getEventPoint rect e
  /\ FlipPage.getPoint rect (Pointer.TouchEvent (t :: ts))
     = FlipPage.getPoint rect (Pointer.MouseEvent t)
  /\ FlipPage.getPoint rect (Pointer.TouchEvent []) = Point2D.mk 0 0
  /\ FlipPage.getPoint
       {| Pointer.left := (Pointer.left rect + dx)%Qc;
          Pointer.top := (Pointer.top rect + dy)%Qc |}
       (Pointer.MouseEvent
          {| Pointer.clientX := (Pointer.clientX t + dx)%Qc;
             Pointer.clientY := (Pointer.clientY t + dy)%Qc |})
     = FlipPage.getPoint rect (Pointer.MouseEvent t).
Proof.
  split; [done|]. split; [done|]. split; [done|].
  unfold FlipPage.getPoint. simpl. f_equal; ring.
Qed.






(** X22.  [addPage].  Without an element nothing happens.  Without an
    index (or with index 0) the page becomes page [totalPages + 1]; with
    an index [p] the count becomes the larger of [p] and the old count,
    so it never decreases.  The new page gets a wrapper of the current
    page width and the element's height, [pagePlace] maps it to itself,
    and no other wrapper, the cursor and the event log are touched. *)
Theorem addPage_extends (s : TurnPage.state) (el : TurnPage.Element)
    (p k : Z) :
  TurnPage.addPage None (Some p) s = s
  /\ TurnPage.totalPages (TurnPage.data (TurnPage.addPage (Some el) None s))
     = TurnPage.totalPages (TurnPage.data s) + 1
  /\ TurnPage.addPage (Some el) (Some 0) s = TurnPage.addPage (Some el) None s
  /\ (p <> 0 ->
      TurnPage.totalPages
        (TurnPage.data (TurnPage.addPage (Some el) (Some p) s))
      = Z.max (TurnPage.totalPages (TurnPage.data s)) p
      /\ (exists w,
            TurnPage.pageWrap
              (TurnPage.data (TurnPage.addPage (Some el) (Some p) s)) !! p
            = Some w
            /\ WrapperStyle.width w = TurnPage.getPageWidth s
            /\ WrapperStyle.height w = TurnPage.offsetHeight s)
      /\ TurnPage.pagePlace
           (TurnPage.data (TurnPage.addPage (Some el) (Some p) s)) !! p
         = Some p
      /\ (k <> p ->
          TurnPage.pageWrap
            (TurnPage.data (TurnPage.addPage (Some el) (Some p) s)) !! k
          = TurnPage.pageWrap (TurnPage.data s) !! k)
      /\ TurnPage.page (TurnPage.data (TurnPage.addPage (Some el) (Some p) s))
         = TurnPage.page (TurnPage.data s)
      /\ TurnPage.events (TurnPage.addPage (Some el) (Some p) s)
         = TurnPage.events s).
Proof.
  split; [done|]. split.
  - unfold TurnPage.addPage. simpl.
    destruct (_ >? _) eqn:Hgt; [done|lia].
  - split; [done|]. intros Hp.
    unfold TurnPage.addPage. simpl.
    destruct (p =? 0) eqn:H0; [lia|].
    split; [destruct (p >? _) eqn:Hgt; lia|].
    split; [eexists; split; [apply lookup_insert_eq|done]|].
    split; [apply lookup_insert_eq|].
    split; [intros Hk; by apply lookup_insert_ne|done].
Qed.

End EngineFacts.


(** ** More about the pagination engine: the page wrappers *)

Section WrapperFacts.
Import TurnPage.
Context `{MathHost}.

Lemma positionPage_positioned view display (m : gmap Z WrapperStyle.t) (p : Z) :
  positionPage view display m p
  = match m !! p with
    | None => m
    | Some w => <[p := positioned view display p w]> m
    end.
Proof.
  unfold positionPage, positioned.
  destruct (m !! p) as [w|] eqn:Hw; [|done].
  destruct (existsb (Z.eqb p) view); [|done].
  destruct (pagePositions _); [done|]. by rewrite insert_id.
Qed.

Lemma positioned_idem view display (p : Z) (w : WrapperStyle.t) :
  positioned view display p (positioned view display p w)
  = positioned view display p w.
Proof.
  unfold positioned.
  destruct (existsb (Z.eqb p) view); [|done]. by destruct (pagePositions _).
Qed.

Lemma positionPage_lookup view display (m : gmap Z WrapperStyle.t) (p k : Z) :
  positionPage view display m p !! k
  = if decide (k = p) then positioned view display p <$> m !! p else m !! k.
Proof.
  rewrite positionPage_positioned.
  destruct (m !! p) as [w|] eqn:Hw; case_decide; subst;
    rewrite ?lookup_insert_eq, ?Hw; try done.
  by rewrite lookup_insert_ne.
Qed.

Lemma positionPages_lookup view display (l : list Z)
    (m : gmap Z WrapperStyle.t) (k : Z) :
  foldl (positionPage view display) m l !! k
  = if decide (k ∈ l) then positioned view display k <$> m !! k else m !! k.
Proof.
  revert m. induction l as [|p l IH]; intros m.
  - cbn [foldl].
    destruct (decide (k ∈ [])) as [Hin|]; [by apply elem_of_nil in Hin|done].
  - cbn [foldl]. rewrite IH, positionPage_lookup.
    destruct (decide (k = p)) as [->|Hne].
    + rewrite (decide_True (P := p ∈ p :: l)) by left.
      case_decide; [|done].
      destruct (m !! p) as [w|]; [|done]. simpl. by rewrite positioned_idem.
    + case_decide as Hin.
      * by rewrite decide_True by by right.
      * rewrite decide_False; [done|]. rewrite elem_of_cons. tauto.
Qed.

Lemma updatePagesPosition_lookup (s : state) (k : Z) :
  pageWrap (data (updatePagesPosition s)) !! k
  = if decide (1 <= k <= totalPages (data s))
    then positioned (view s) (display (data s)) k <$> pageWrap (data s) !! k
    else pageWrap (data s) !! k.
Proof.
  unfold updatePagesPosition. simpl. rewrite positionPages_lookup.
  destruct (decide (1 <= k <= totalPages (data s))) as [Hk|Hk].
  - rewrite decide_True; [done|]. apply elem_of_seqZ. lia.
  - rewrite decide_False; [done|]. rewrite elem_of_seqZ. lia.
Qed.

Lemma updatePagesPosition_dom (s : state) :
  dom (pageWrap (data (updatePagesPosition s))) = dom (pageWrap (data s)).
Proof.
  apply set_eq. intros k.
  rewrite !elem_of_dom, updatePagesPosition_lookup.
  case_decide; [|done]. by rewrite fmap_is_Some.
Qed.

Lemma existsb_In (k : Z) (l : list Z) : existsb (Z.eqb k) l = true <-> In k l.
Proof.
  rewrite existsb_exists. split.
  - intros (x & Hin & Heq). apply Z.eqb_eq in Heq. by subst.
  - intros Hin. exists k. split; [done|apply Z.eqb_refl].
Qed.

Lemma positioned_width view display p (w : WrapperStyle.t) :
  WrapperStyle.width (positioned view display p w) = WrapperStyle.width w
  /\ WrapperStyle.height (positioned view display p w) = WrapperStyle.height w
  /\ WrapperStyle.transform (positioned view display p w)
     = WrapperStyle.transform w.
Proof.
  unfold positioned.
  destruct (existsb (Z.eqb p) view); [|done]. by destruct (pagePositions _).
Qed.

(** X21.  A page change shows the new view and nothing else.  After
    [setPage(n)] for another page of the book, the wrapper of every page
    from 1 to [totalPages] is visible if the page is in the new view and
    hidden, otherwise unchanged, if it is not.  A visible wrapper sits at
    the top; in double mode an odd page is pinned to the right edge and
    an even page to the left edge, in single mode the page is pinned to
    the left edge. *)
Theorem setPage_shows_view (s : state) (n k : Z) (w : WrapperStyle.t) :
  1 <= n <= totalPages (data s) -> n <> page (data s) ->
  1 <= k <= totalPages (data s) -> pageWrap (data s) !! k = Some w ->
  exists w',
    pageWrap (data (snd (setPage n s))) !! k = Some w'
    /\ (In k (view (snd (setPage n s))) ->
        WrapperStyle.visibility w' = WrapperStyle.visible
        /\ WrapperStyle.top w' = WrapperStyle.px 0
        /\ WrapperStyle.bottom w' = WrapperStyle.auto
        /\ (display (data s) = "double" -> Z.odd k = true ->
            WrapperStyle.right w' = WrapperStyle.px 0
            /\ WrapperStyle.left w' = WrapperStyle.auto)
        /\ (display (data s) = "double" -> Z.odd k = false ->
            WrapperStyle.left w' = WrapperStyle.px 0
            /\ WrapperStyle.right w' = WrapperStyle.auto)
        /\ (display (data s) <> "double" ->
            WrapperStyle.left w' = WrapperStyle.px 0
            /\ WrapperStyle.right w' = WrapperStyle.auto))
    /\ (~ In k (view (snd (setPage n s))) ->
        w' = WrapperStyle.with_visibility WrapperStyle.hidden w).
Proof.
  intros Hn Hne Hk Hw. rewrite setPage_moves by done.
  cbn [snd].
  change (view (dispatchEvent _ (updatePagesPosition (with_page n s))))
    with (view (with_page n s)).
  change (pageWrap (data (dispatchEvent (pageChanged (page (data s)) n)
                            (updatePagesPosition (with_page n s)))))
    with (pageWrap (data (updatePagesPosition (with_page n s)))).
  rewrite updatePagesPosition_lookup.
  change (totalPages (data (with_page n s))) with (totalPages (data s)).
  change (pageWrap (data (with_page n s))) with (pageWrap (data s)).
  change (display (data (with_page n s))) with (display (data s)).
  rewrite decide_True by done. rewrite Hw. simpl.
  eexists. split; [done|]. unfold positioned. split.
  - intros Hin. apply existsb_In in Hin. rewrite Hin.
    assert (Hrem : Z.rem k 2 = if Z.odd k then 1 else 0).
    { rewrite Z.rem_mod_nonneg, Zodd_mod by lia.
      pose proof (Z.mod_pos_bound k 2 ltac:(lia)).
      destruct (k mod 2 =? 1) eqn:E; lia. }
    destruct (String.eqb (display (data s)) "double") eqn:Hd.
    + apply String.eqb_eq in Hd. rewrite Hrem.
      destruct (Z.odd k); simpl; repeat split; try done; congruence.
    + apply String.eqb_neq in Hd. simpl. repeat split; try done.
  - intros Hout. destruct (existsb (Z.eqb k) _) eqn:Hin; [|done].
    by apply existsb_In in Hin.
Qed.

(** X25.  A change of display mode resizes every page.  On an
    initialised engine, after [setDisplay] to the other mode every page
    wrapper and every page element has the new page width: half the
    element's width in double mode, the full width in single mode; the
    set of wrapped pages is the same. *)
Theorem setDisplay_resizes (s : state) (mode : string) (k : Z) :
  done (data s) = true -> In mode displays -> mode <> display (data s) ->
  (forall w', pageWrap (data (snd (setDisplay mode s))) !! k = Some w' ->
              WrapperStyle.width w'
              = if String.eqb mode "double"
                then (offsetWidth s / JS.ofZ 2)%Qc else offsetWidth s)
  /\ (forall e', pageObjs (data (snd (setDisplay mode s))) !! k = Some e' ->
                 elWidth e'
                 = Some (if String.eqb mode "double"
                         then (offsetWidth s / JS.ofZ 2)%Qc else offsetWidth s))
  /\ (is_Some (pageWrap (data (snd (setDisplay mode s))) !! k)
      <-> is_Some (pageWrap (data s) !! k)).
Proof.
  intros Hdone Hin Hne. unfold setDisplay.
  rewrite (includes_displays mode Hin). simpl.
  destruct (String.eqb (display (data s)) mode) eqn:Hsame;
    [apply String.eqb_eq in Hsame; congruence|].
  rewrite Hdone. cbn [snd].
  match goal with
  | |- context [dispatchEvent ?e (updatePagesPosition ?t)] =>
      change (pageWrap (data (dispatchEvent e (updatePagesPosition t))))
        with (pageWrap (data (updatePagesPosition t)));
      change (pageObjs (data (dispatchEvent e (updatePagesPosition t))))
        with (pageObjs (data t));
      set (t' := t)
  end.
  rewrite updatePagesPosition_lookup.
  assert (Hwraps : pageWrap (data t')
                   = WrapperStyle.with_width
                       (if String.eqb mode "double"
                        then (offsetWidth s / JS.ofZ 2)%Qc else offsetWidth s)
                     <$> pageWrap (data s)) by done.
  assert (Hobjs : pageObjs (data t')
                  = (fun page =>
                       {| elWidth :=
                            Some (if String.eqb mode "double"
                                  then (offsetWidth s / JS.ofZ 2)%Qc
                                  else offsetWidth s);
                          elHeight := elHeight page |})
                    <$> pageObjs (data s)) by done.
  rewrite Hwraps, Hobjs, !lookup_fmap. clearbody t'.
  split; [|split].
  - intros w' Hw'. destruct (pageWrap (data s) !! k) as [w|]; [|by case_decide].
    case_decide; simpl in Hw'; injection Hw' as <-;
      [by rewrite (proj1 (positioned_width _ _ _ _))|done].
  - intros e' He'. destruct (pageObjs (data s) !! k) as [e|]; [|done].
    simpl in He'. by injection He' as <-.
  - case_decide; by rewrite ?fmap_is_Some.
Qed.

End WrapperFacts.


(** ** More about the pagination engine: tables, drags, construction *)

Section TableFacts.
Import TurnPage.
Context `{MathHost}.

Lemma tablesOk_tables (s s' : state) :
  tables s' = tables s -> tablesOk s -> tablesOk s'.
Proof.
  unfold tables, tablesOk. intros Heq (Ho & Hp & Hid & Hle).
  injection Heq as Eo Ew Ep Et.
  rewrite Ep, Et, Eo, Ew. repeat split; try done.
  intros k Hk. apply Hle. apply elem_of_dom. rewrite <- Ew.
  by apply elem_of_dom.
Qed.

Lemma updatePagesPosition_tables (s : state) :
  tables (updatePagesPosition s) = tables s.
Proof.
  unfold tables. rewrite updatePagesPosition_dom. done.
Qed.

Lemma setPage_tables (n : Z) (s : state) :
  tables (snd (setPage n s)) = tables s.
Proof.
  unfold setPage. repeat case_match; try done.
  cbn [snd]. etrans; [|apply (updatePagesPosition_tables (with_page n s))].
  done.
Qed.

Lemma setDisplay_tables (mode : string) (s : state) :
  tables (snd (setDisplay mode s)) = tables s.
Proof.
  unfold setDisplay. repeat case_match; try done. cbn [snd].
  match goal with
  | |- tables (dispatchEvent _ (updatePagesPosition ?t)) = _ =>
      etrans; [apply (updatePagesPosition_tables t)|]
  end.
  unfold tables. simpl. by rewrite !dom_fmap_L.
Qed.

Lemma insert_wrapper_tables (s : state) (k : Z) (w : WrapperStyle.t) :
  is_Some (pageWrap (data s) !! k) ->
  tables (with_pageWrap (<[k := w]> (pageWrap (data s))) s) = tables s.
Proof.
  intros Hk. unfold tables. simpl. by rewrite dom_insert_lookup_L.
Qed.

Lemma startFlip_tables (corner : string) (s : state) :
  tables (startFlip corner s) = tables s.
Proof.
  unfold startFlip. repeat case_match; try done.
  all: match goal with
       | Hw : pageWrap (data ?s0) !! ?k = Some _
         |- tables (dispatchEvent _ (with_pageWrap (<[_ := ?w]> _) ?t)) = _ =>
           etrans; [|apply (insert_wrapper_tables s0 k w); by eexists]
       end.
  all: done.
Qed.

Lemma updateFlip_tables (pt : Point2D.t) (s : state) :
  tables (updateFlip pt s) = tables s.
Proof.
  unfold updateFlip. repeat case_match; try done.
  all: match goal with
       | Hw : pageWrap (data ?s0) !! ?k = Some _
         |- tables (dispatchEvent _ (with_pageWrap (<[_ := ?w]> _) ?t)) = _ =>
           etrans; [|apply (insert_wrapper_tables s0 k w); by eexists]
       end.
  all: done.
Qed.

Lemma timeout_tables (k : nat) (s : state) :
  tables (timeout k s) = tables s.
Proof.
  unfold timeout. repeat case_match; try done.
  all: match goal with
       | Hw : pageWrap (data ?s0) !! ?k = Some _
         |- tables (with_queues _ _ (with_pageWrap (<[_ := ?w]> _) ?t)) = _ =>
           etrans; [|apply (insert_wrapper_tables s0 k w); by eexists]
       end.
  all: done.
Qed.

Lemma completeFlip_tables (s : state) :
  tables (snd (completeFlip s)) = tables s.
Proof.
  unfold completeFlip.
  destruct (pageMv (data s)) as [|pg mv]; [done|].
  destruct (pageWrap (data s) !! pg) as [wrapper|] eqn:Hw; [|done].
  match goal with
  | |- context [if ?c then setPage ?n ?t else _] =>
      pose proof (setPage_tables n t) as Hset;
      assert (Ht : tables t = tables s)
        by (apply insert_wrapper_tables; by eexists);
      destruct c; [destruct (setPage n t) as [[|e] t'] eqn:Hsp|]
  end; cbn [snd] in *.
  - etrans; [|exact Ht]. etrans; [|exact Hset]. done.
  - by etrans.
  - etrans; [|exact Ht]. done.
Qed.

Lemma addPage_tablesOk element pg (s : state) :
  tablesOk s -> tablesOk (addPage element pg s).
Proof.
  intros (Ho & Hp & Hid & Hle). unfold addPage.
  destruct element as [el|]; [|done].
  set (k := match pg with
            | Some p => if p =? 0 then totalPages (data s) + 1 else p
            | None => totalPages (data s) + 1
            end).
  unfold tablesOk. simpl. rewrite !dom_insert_L, Ho, Hp.
  split; [done|]. split; [done|]. split.
  - intros j v. rewrite lookup_insert. case_decide; [by intros [= <-]|].
    apply Hid.
  - intros j. rewrite lookup_insert. case_decide as Hj.
    + intros _. subst j. destruct (k >? totalPages (data s)) eqn:Hgt; lia.
    + intros Hsome. apply Hle in Hsome.
      destruct (k >? totalPages (data s)) eqn:Hgt; lia.
Qed.

Lemma step_tablesOk (a : action) (s : state) :
  tablesOk s -> tablesOk (step a s).
Proof.
  intros Hs. destruct a; unfold step.
  - by apply addPage_tablesOk.
  - eapply tablesOk_tables; [apply setDisplay_tables|done].
  - eapply tablesOk_tables; [apply setPage_tables|done].
  - unfold next. repeat case_match; try done.
    eapply tablesOk_tables; [apply setPage_tables|done].
  - unfold previous. repeat case_match; try done.
    eapply tablesOk_tables; [apply setPage_tables|done].
  - unfold tablesOk, destroy.
    cbn [data pageObjs pageWrap pagePlace totalPages with_data].
    split; [done|]. split; [done|]. split.
    + intros k v Hk. by rewrite lookup_empty in Hk.
    + intros k [v Hk]. by rewrite lookup_empty in Hk.
  - unfold handleStart. repeat case_match; try done.
    eapply tablesOk_tables; [apply startFlip_tables|done].
  - unfold handleMove. case_match; [done|].
    eapply tablesOk_tables; [apply updateFlip_tables|done].
  - unfold handleEnd. case_match; [done|].
    eapply tablesOk_tables; [apply completeFlip_tables|done].
  - eapply tablesOk_tables; [apply timeout_tables|done].
  - done.
Qed.

Lemma addPages_tablesOk (children : list (nat * Element)) (s : state) :
  tablesOk s ->
  tablesOk (foldl (fun s '(i, child) =>
                     addPage (Some child) (Some (Z.of_nat i + 1)) s)
                  s children).
Proof.
  revert s. induction children as [|[i child] l IH]; intros s Hs; [done|].
  change (foldl ?f s ((i, child) :: l))
    with (foldl f (addPage (Some child) (Some (Z.of_nat i + 1)) s) l).
  apply IH. by apply addPage_tablesOk.
Qed.

Lemma create_tablesOk opts has3d isTouch w h children (s : state) :
  create opts has3d isTouch w h children = inr s -> tablesOk s.
Proof.
  unfold create, initialize. cbv zeta. intros Hi.
  destruct (setDisplay _ _) as [[|e] s1] eqn:Hsd; [|done].
  destruct (setPage _ _) as [[|e] s2] eqn:Hsp; [|done].
  injection Hi as <-.
  match type of Hsp with
  | setPage ?n ?t = _ =>
      pose proof (setPage_tables n t) as Hset; rewrite Hsp in Hset;
      cbn [snd] in Hset
  end.
  match type of Hsd with
  | setDisplay ?m ?t = _ =>
      pose proof (setDisplay_tables m t) as Hdis; rewrite Hsd in Hdis;
      cbn [snd] in Hdis
  end.
  eapply tablesOk_tables; [etrans; [|exact Hset]; done|].
  apply addPages_tablesOk.
  eapply tablesOk_tables; [etrans; [|exact Hdis]; done|].
  unfold tablesOk, fresh.
  cbn [data pageObjs pageWrap pagePlace totalPages].
  split; [done|]. split; [done|]. split.
  - intros k v Hk. by rewrite lookup_empty in Hk.
  - intros k [v Hk]. by rewrite lookup_empty in Hk.
Qed.

Lemma reachable_tablesOk (s : state) : reachable s -> tablesOk s.
Proof.
  induction 1 as [opts has3d isTouch w h children s Hc|a s _ IH].
  - by eapply create_tablesOk.
  - by apply step_tablesOk.
Qed.

(** X23.  The page tables stay consistent.  In every reachable state a
    page has a wrapper exactly when it has an element and a place, its
    place is its own number, and no page with a wrapper is numbered above
    [totalPages]. *)
Theorem tables_invariant (s : state) (k : Z) :
  reachable s ->
  (is_Some (pageWrap (data s) !! k) <-> is_Some (pageObjs (data s) !! k))
  /\ (is_Some (pageWrap (data s) !! k) <-> pagePlace (data s) !! k = Some k)
  /\ (is_Some (pageWrap (data s) !! k) -> k <= totalPages (data s)).
Proof.
  intros Hr. destruct (reachable_tablesOk s Hr) as (Ho & Hp & Hid & Hle).
  split; [|split; [|by apply Hle]].
  - by rewrite <- !elem_of_dom, Ho.
  - rewrite <- elem_of_dom, <- Hp, elem_of_dom. split.
    + intros [v Hv]. by rewrite Hv, (Hid k v Hv).
    + intros Hk. by eexists.
Qed.

End TableFacts.

Section DragFacts.
Import TurnPage.
Context `{MathHost}.

(** What a pointer start does to an idle engine. *)
Lemma startFlip_cases (corner : string) (s : state) :
  startFlip corner s = s
  \/ exists pg, In pg (view s)
                /\ is_Some (pageWrap (data (startFlip corner s)) !! pg)
                /\ pageMv (data (startFlip corner s)) = [pg].
Proof.
  unfold startFlip.
  destruct (disabled (data s) || negb (bool_decide (pageMv (data s) = [])));
    [by left|].
  destruct (if includes_r corner then head (view s) else last (view s))
    as [pg|] eqn:Hpg; [|by left].
  assert (Hin : In pg (view s)).
  { apply list_elem_of_In.
    destruct (includes_r corner);
      [by apply head_Some_elem_of|by apply last_Some_elem_of]. }
  destruct (pageWrap (data s) !! pg) as [wrapper|]; [|by left].
  destruct ((_ <? 1) || (_ >? _)); [by left|].
  right. exists pg. split; [done|]. split; [|done].
  simpl. rewrite lookup_insert_eq. by eexists.
Qed.

Lemma moves_keep (qs : list Point2D.t) (s : state) :
  page (data (foldl (fun s q => handleMove q s) s qs)) = page (data s)
  /\ display (data (foldl (fun s q => handleMove q s) s qs)) = display (data s)
  /\ disabled (data (foldl (fun s q => handleMove q s) s qs))
     = disabled (data s)
  /\ pageMv (data (foldl (fun s q => handleMove q s) s qs)) = pageMv (data s)
  /\ tables (foldl (fun s q => handleMove q s) s qs) = tables s.
Proof.
  revert s. induction qs as [|q qs IH]; intros s; [done|].
  change (foldl ?f s (q :: qs)) with (foldl f (handleMove q s) qs).
  destruct (IH (handleMove q s)) as (-> & -> & -> & -> & ->).
  unfold handleMove. case_match; [done|].
  destruct (updateFlip_cursor q s) as (-> & _ & -> & ->).
  by rewrite updateFlip_pageMv, updateFlip_tables.
Qed.

Lemma view_of_cursor (s s' : state) :
  page (data s') = page (data s) -> display (data s') = display (data s) ->
  view s' = view s.
Proof. unfold view. by intros -> ->. Qed.

(** Completing a drag of a page of the view leaves the view alone. *)
Lemma completeFlip_view (s : state) (pg : Z) (mv : list Z) :
  pageMv (data s) = pg :: mv -> In pg (view s) -> 1 <= page (data s) ->
  is_Some (pageWrap (data s) !! pg) ->
  view (snd (completeFlip s)) = view s
  /\ pageMv (data (snd (completeFlip s))) = [].
Proof.
  intros Hmv Hin Hp [wrapper Hw]. unfold completeFlip. rewrite Hmv, Hw.
  match goal with
  | |- context [if ?c then setPage ?n ?t else _] =>
      assert (Hview : view t = view s) by done;
      assert (Hpage : page (data t) = page (data s)) by done;
      assert (Hdisp : display (data t) = display (data s)) by done;
      set (n' := n) in *; set (t' := t) in *
  end.
  assert (Hn : n' = page (data s)
               \/ (display (data s) = "double" /\ 1 <= n'
                   /\ view (with_page n' t') = view s)).
  { unfold n'. change (display (data t')) with (display (data s)).
    destruct (String.eqb (display (data s)) "double") eqn:Hd.
    - apply String.eqb_eq in Hd. right. split; [done|].
      assert (Hvn : forall m, 1 <= m ->
                view (with_page m t')
                = if Z.odd m then [m; m + 1] else [m - 1; m]).
      { intros m Hm. by rewrite view_double. }
      rewrite (view_double s Hd Hp) in Hin.
      assert (Hpg : 1 <= pg).
      { destruct (Z.odd (page (data s))) eqn:Ho; simpl in Hin.
        - lia.
        - assert (page (data s) <> 1) by (intros E; by rewrite E in Ho). lia. }
      rewrite Z.rem_mod_nonneg by lia.
      assert (Hm2 : pg mod 2 = if Z.odd pg then 1 else 0).
      { rewrite Zodd_mod. pose proof (Z.mod_pos_bound pg 2 ltac:(lia)).
        destruct (pg mod 2 =? 1) eqn:E; lia. }
      rewrite Hm2, (view_double s Hd Hp).
      destruct (Z.odd pg) eqn:Hopg; simpl.
      + split; [lia|]. rewrite Hvn by lia.
        rewrite Z.odd_add, Hopg. simpl.
        destruct (Z.odd (page (data s))) eqn:Ho; simpl in Hin.
        * destruct Hin as [<-|[<-|[]]].
          -- repeat (f_equal; try lia).
          -- rewrite Z.odd_add, Ho in Hopg. done.
        * destruct Hin as [<-|[<-|[]]].
          -- repeat (f_equal; try lia).
          -- congruence.
      + assert (pg <> 1) by (intros E; by rewrite E in Hopg).
        split; [lia|]. rewrite Hvn by lia.
        rewrite Z.odd_sub, Hopg. simpl.
        destruct (Z.odd (page (data s))) eqn:Ho; simpl in Hin.
        * destruct Hin as [<-|[<-|[]]].
          -- congruence.
          -- repeat (f_equal; try lia).
        * destruct Hin as [<-|[<-|[]]].
          -- rewrite Z.odd_sub, Ho in Hopg. done.
          -- repeat (f_equal; try lia).
    - left. apply String.eqb_neq in Hd.
      rewrite view_single in Hin by (done || lia).
      by destruct Hin as [<-|[]]. }
  clearbody n'.
  assert (Hset : fst (setPage n' t') = Normal ->
                 view (snd (setPage n' t')) = view s
                 /\ pageMv (data (snd (setPage n' t'))) = pageMv (data t')).
  { intros Hnorm. split; [|apply setPage_pageMv].
    destruct (setPage_cases n' t') as [[Hthrow _]|(_ & Hrange & Hpn)];
      [by rewrite Hthrow in Hnorm|].
    destruct (setPage_frame n' t') as (Hfd & _).
    destruct Hn as [->|(_ & _ & <-)].
    - rewrite <- Hview. apply view_of_cursor; congruence.
    - apply view_of_cursor; [by rewrite Hpn|by rewrite Hfd]. }
  destruct ((n' >=? 1) && (n' <=? totalPages (data t'))) eqn:Hc.
  - apply andb_prop in Hc as [Hlo Hhi].
    destruct (setPage_cases n' t') as [[_ Hout]|(Hnorm & _ & _)]; [lia|].
    destruct (Hset Hnorm) as [Hv _].
    destruct (setPage n' t') as [[|e] t''] eqn:Hsp; [|done].
    by split.
  - by split.
Qed.

(** X24.  A drag never turns the page.  On an engine with no drag in
    progress and the cursor on a page, a pointer start, any number of
    moves and the end return without error, close the motion set and leave
    the view as it was: in double mode the cursor can only move to the
    other page of the same spread, in single mode it does not move. *)
Theorem drag_never_turns (s : state) (pt : Point2D.t) (qs : list Point2D.t) :
  pageMv (data s) = [] -> 1 <= page (data s) ->
  view (snd (handleEnd
               (foldl (fun s q => handleMove q s) (handleStart pt s) qs)))
    = view s
  /\ pageMv (data (snd (handleEnd
                          (foldl (fun s q => handleMove q s)
                                 (handleStart pt s) qs))))
     = []
  /\ totalPages (data (snd (handleEnd
                              (foldl (fun s q => handleMove q s)
                                     (handleStart pt s) qs))))
     = totalPages (data s).
Proof.
  intros Hidle Hp.
  set (s1 := handleStart pt s).
  assert (H1 : page (data s1) = page (data s)
               /\ display (data s1) = display (data s)
               /\ totalPages (data s1) = totalPages (data s)
               /\ (pageMv (data s1) = []
                   \/ exists pg, In pg (view s)
                                 /\ is_Some (pageWrap (data s1) !! pg)
                                 /\ pageMv (data s1) = [pg]
                                 /\ disabled (data s1) = false)).
  { unfold s1, handleStart.
    destruct (disabled (data s)) eqn:Hdis; [by auto|].
    destruct (detectCorner s pt) as [corner|]; [|by auto].
    destruct (startFlip_cursor corner s) as (-> & -> & Hd' & ->).
    split; [done|]. split; [done|]. split; [done|].
    destruct (startFlip_cases corner s) as [->|(pg & ? & ? & ?)]; [by left|].
    right. exists pg. by rewrite Hd', Hdis. }
  destruct H1 as (Hp1 & Hd1 & Ht1 & Hmv1).
  destruct (moves_keep qs s1) as (Hp2 & Hd2 & Hdis2 & Hmv2 & Htab2).
  set (s2 := foldl _ s1 qs) in *.
  assert (Hv2 : view s2 = view s)
    by (apply view_of_cursor; congruence).
  assert (Ht2 : totalPages (data s2) = totalPages (data s)).
  { unfold tables in Htab2. injection Htab2 as _ _ _ ->. done. }
  unfold handleEnd.
  destruct Hmv1 as [Hnil|(pg & Hin & Hw & Hmv & Hdis)].
  - rewrite Hmv2, Hnil. rewrite bool_decide_eq_true_2 by done.
    rewrite orb_true_r. cbn [snd]. by rewrite Hmv2, Hnil.
  - rewrite Hdis2, Hdis, Hmv2, Hmv. cbn [orb].
    rewrite bool_decide_eq_false_2 by done.
    assert (Hw2 : is_Some (pageWrap (data s2) !! pg)).
    { apply elem_of_dom. unfold tables in Htab2.
      injection Htab2 as _ -> _ _. by apply elem_of_dom. }
    destruct (completeFlip_view s2 pg []) as [Hv Hm];
      [congruence|by rewrite Hv2|lia|done|].
    split; [by rewrite Hv|]. split; [done|].
    pose proof (completeFlip_tables s2) as Htab.
    unfold tables in Htab. injection Htab as _ _ _ ->. done.
Qed.

End DragFacts.

Section ConstructionFacts.
Import TurnPage.

Lemma addPages_count (l : list Element) (f : nat -> nat) (j : nat)
    (s : state) :
  (forall i, f i = (j + i)%nat) -> totalPages (data s) = Z.of_nat j ->
  totalPages
    (data (foldl (fun s '(i, child) =>
                    addPage (Some child) (Some (Z.of_nat i + 1)) s)
                 s (imap (fun (i : nat) (c : Element) => (f i, c)) l)))
  = Z.of_nat (j + length l).
Proof.
  revert f j s. induction l as [|c l IH]; intros f j s Hf Hs.
  - simpl. rewrite Hs. f_equal. lia.
  - rewrite imap_cons. cbn [foldl].
    change ((fun (i : nat) (c : Element) => (f i, c)) ∘ S) with (fun (i : nat) (c : Element) => (f (S i), c)).
    rewrite (IH (fun i => f (S i)) (S j)).
    + f_equal. simpl. lia.
    + intros i. rewrite Hf. lia.
    + rewrite Hf. unfold addPage. simpl.
      rewrite Hs. replace (j + 0)%nat with j by lia.
      destruct (Z.of_nat j + 1 =? 0) eqn:E0; [lia|].
      destruct (Z.of_nat j + 1 >? Z.of_nat j) eqn:Hgt; lia.
Qed.

Lemma addPages_events (children : list (nat * Element)) (s : state) :
  events (foldl (fun s '(i, child) =>
                   addPage (Some child) (Some (Z.of_nat i + 1)) s)
                s children) = events s
  /\ done (data (foldl (fun s '(i, child) =>
                          addPage (Some child) (Some (Z.of_nat i + 1)) s)
                       s children)) = done (data s).
Proof.
  revert s. induction children as [|[i child] l IH]; intros s; [done|].
  change (foldl ?f s ((i, child) :: l))
    with (foldl f (addPage (Some child) (Some (Z.of_nat i + 1)) s) l).
  by destruct (IH (addPage (Some child) (Some (Z.of_nat i + 1)) s)) as [-> ->].
Qed.

(** X27.  Construction.  [new TurnPage(element, options)] succeeds
    exactly when the display mode asked for is ['single'] or ['double']
    and the first page asked for (1 by default) is one of the element's
    children.  Then every child is a page ([totalPages] is their number),
    the cursor is on the first page asked for, nothing was dispatched, no
    drag is in progress and the engine is marked ready.  Otherwise the
    constructor throws: the display error first, else the page error; in
    particular it throws for an element without children. *)
Theorem create_succeeds_iff (opts : LeafOptions.t) (has3d isTouch : bool)
    (w h : Qc) (children : list Element) :
  (In (display (data (fresh opts w h))) displays ->
   1 <= page (data (fresh opts w h)) <= Z.of_nat (length children) ->
   exists s,
     create opts has3d isTouch w h children = inr s
     /\ totalPages (data s) = Z.of_nat (length children)
     /\ page (data s) = page (data (fresh opts w h))
     /\ display (data s) = display (data (fresh opts w h))
     /\ events s = [] /\ pageMv (data s) = [] /\ done (data s) = true)
  /\ (~ In (display (data (fresh opts w h))) displays ->
      create opts has3d isTouch w h children
      = inl (InvalidDisplayMode (display (data (fresh opts w h)))))
  /\ (In (display (data (fresh opts w h))) displays ->
      ~ (1 <= page (data (fresh opts w h)) <= Z.of_nat (length children)) ->
      create opts has3d isTouch w h children
      = inl (InvalidPageNumber (page (data (fresh opts w h))))).
Proof.
  unfold create, initialize. cbv zeta.
  set (display0 := match LeafOptions.display (options (fresh opts w h)) with
                   | Some d => if String.eqb d "" then "double" else d
                   | None => "double"
                   end).
  set (page0 := match LeafOptions.page (options (fresh opts w h)) with
                | Some p => if p =? 0 then 1 else p
                | None => 1
                end).
  change (display (data (fresh opts w h))) with display0.
  change (page (data (fresh opts w h))) with page0.
  match goal with
  | |- context [setDisplay display0 ?t] => set (t0 := t)
  end.
  assert (Hsd : In display0 displays -> setDisplay display0 t0 = (Normal, t0)).
  { intros Hin. unfold setDisplay. rewrite (includes_displays _ Hin). simpl.
    change (display (data t0)) with display0. by rewrite String.eqb_refl. }
  assert (Hsd' : ~ In display0 displays ->
                 setDisplay display0 t0 = (Throw (InvalidDisplayMode display0), t0)).
  { intros Hout. unfold setDisplay.
    destruct (JS.includes displays display0) eqn:Hin; [|done].
    exfalso. apply Hout. unfold JS.includes in Hin.
    apply existsb_exists in Hin as (m & Hm & Heq).
    apply String.eqb_eq in Heq. by subst. }
  split; [|split].
  - intros Hin Hrange. rewrite (Hsd Hin).
    match goal with
    | |- context [setPage page0 (foldl ?f ?t ?l)] =>
        set (t1 := foldl f t l);
        assert (Htot : totalPages (data t1) = Z.of_nat (length children))
          by (unfold t1; change (imap pair children)
                with (imap (fun (i : nat) (c : Element) => (id i, c)) children);
              by rewrite (addPages_count children id 0));
        assert (Hpg : page (data t1) = page0)
          by (unfold t1; by rewrite (proj2 (proj2 (addPages_cursor l t))));
        destruct (addPages_events l t) as [Hev Hdn];
        pose proof (addPages_pageMv l t) as Hmv
    end.
    fold t1 in Hev, Hdn, Hmv.
    assert (Hsp : setPage page0 t1 = (Normal, t1)).
    { rewrite <- Hpg. apply setPage_stays. rewrite Hpg, Htot. done. }
    rewrite Hsp. eexists. split; [done|].
    cbn [with_done with_data with_cursor data totalPages page display events
         pageMv done].
    rewrite Htot, Hpg, Hev, Hmv.
    repeat split; try done.
    unfold t1. by rewrite (proj1 (proj2 (addPages_cursor _ _))).
  - intros Hout. by rewrite (Hsd' Hout).
  - intros Hin Hrange. rewrite (Hsd Hin).
    match goal with
    | |- context [setPage page0 (foldl ?f ?t ?l)] =>
        set (t1 := foldl f t l);
        assert (Htot : totalPages (data t1) = Z.of_nat (length children))
          by (unfold t1; change (imap pair children)
                with (imap (fun (i : nat) (c : Element) => (id i, c)) children);
              by rewrite (addPages_count children id 0))
    end.
    rewrite setPage_rejects; [done|]. rewrite Htot. lia.
Qed.

End ConstructionFacts.


(** ** The further facts, evaluated on the examples *)

Section EvaluatedMore.
Import Examples.


Lemma bezier_on_grid_example :
  Utils.reachable Utils.initialMemo
  /\ Utils.onGrid
       (fst (Utils.bezier Utils.initialMemo fine origin origin coarse
               (JS.frac 1 3))).
Proof.
  split; [exact Utils.reach_init|].
  exact (proj1 (bezier_on_grid Utils.initialMemo fine origin origin coarse
                  (JS.frac 1 3) Utils.reach_init)).
Defined.



Lemma transform_nested_example :
  Utils.transform
    [Utils.transform ["rotate(45deg)"];
     Utils.transform ["translate(1px, 2px)"; "scale(2)"]]
  = Utils.transform ["rotate(45deg)"; "translate(1px, 2px)"; "scale(2)"].
Proof.
  apply (transform_nested ["rotate(45deg)"]
           ["translate(1px, 2px)"; "scale(2)"]); discriminate.
Defined.

Lemma detectors_agree_example :
  FlipPage.corners (FlipPage.options allSurface) = Some "all"
  /\ FlipPage.cornerSize (FlipPage.options allSurface) = Some (JS.ofZ 50)
  /\ FlipPage.detectCorner allSurface (Point2D.mk (JS.ofZ 790) (JS.ofZ 10))
     = TurnPage.detectCorner book4 (Point2D.mk (JS.ofZ 790) (JS.ofZ 10)).
Proof.
  split; [reflexivity|]. split; [reflexivity|].
  apply detectors_agree; vm_compute; reflexivity.
Defined.

Lemma detectCorner_no_zone_example :
  FlipPage.cornerSize (FlipPage.options deadSurface) = Some 0%Qc
  /\ FlipPage.detectCorner deadSurface (Point2D.mk (JS.ofZ 5) (JS.ofZ 5)) = None
  /\ FlipPage.handleStart (Point2D.mk (JS.ofZ 5) (JS.ofZ 5)) deadSurface
     = deadSurface.
Proof.
  assert (Hz : FlipPage.cornerSize (FlipPage.options deadSurface) = Some 0%Qc)
    by reflexivity.
  split; [exact Hz|].
  exact (detectCorner_no_zone deadSurface (Point2D.mk (JS.ofZ 5) (JS.ofZ 5))
           (or_intror Hz)).
Defined.

Lemma drag_cycle_example :
  FlipPage.detectCorner surface (Point2D.mk (JS.ofZ 290) (JS.ofZ 10))
    = Some "tr"
  /\ FlipPage.events
       (FlipPage.handleEnd
          (foldl (fun s q => @FlipPage.handleMove host q s)
                 (FlipPage.handleStart (Point2D.mk (JS.ofZ 290) (JS.ofZ 10))
                    surface)
                 [Point2D.mk (JS.ofZ 295) (JS.ofZ 10)]))
     = FlipPage.events surface
       ++ [FlipPage.flipstart (Point2D.mk (JS.ofZ 290) (JS.ofZ 10)) "tr";
           FlipPage.flipend].
Proof.
  assert (Hc : FlipPage.detectCorner surface
                 (Point2D.mk (JS.ofZ 290) (JS.ofZ 10)) = Some "tr")
    by (vm_compute; reflexivity).
  split; [exact Hc|].
  pose proof (@drag_cycle host surface (Point2D.mk (JS.ofZ 290) (JS.ofZ 10))
                "tr" [Point2D.mk (JS.ofZ 295) (JS.ofZ 10)] eq_refl eq_refl Hc)
    as (_ & _ & He & _).
  exact He.
Defined.



Lemma navigation_never_throws_example :
  @TurnPage.reachable host draggedBook
  /\ fst (TurnPage.next draggedBook) = TurnPage.Normal
  /\ fst (TurnPage.previous draggedBook) = TurnPage.Normal
  /\ fst (TurnPage.handleEnd draggedBook) = TurnPage.Normal.
Proof.
  split; [exact draggedBook_reachable|].
  exact (@navigation_never_throws host draggedBook draggedBook_reachable).
Defined.

Lemma singleBook_cursor :
  TurnPage.display (TurnPage.data singleBook) = "single"
  /\ TurnPage.page (TurnPage.data singleBook) = 1
  /\ TurnPage.totalPages (TurnPage.data singleBook) = 4.
Proof. vm_compute. auto. Qed.

Lemma single_mode_stepping_example :
  TurnPage.display (TurnPage.data singleBook) = "single"
  /\ TurnPage.page (TurnPage.data (snd (TurnPage.next singleBook)))
     = TurnPage.page (TurnPage.data singleBook) + 1
  /\ TurnPage.previous singleBook = (TurnPage.Normal, singleBook).
Proof.
  destruct singleBook_cursor as (Hd & Hp & Ht).
  assert (Hr : 1 <= TurnPage.page (TurnPage.data singleBook)
               <= TurnPage.totalPages (TurnPage.data singleBook))
    by (rewrite Hp, Ht; lia).
  pose proof (single_mode_stepping singleBook Hd Hr) as (Hn & _ & _ & Hpr).
  split; [exact Hd|]. split.
  - apply Hn. rewrite Hp, Ht. lia.
  - apply Hpr. exact Hp.
Defined.

Lemma double_mode_stepping_example :
  TurnPage.view book4 = [1; 2]
  /\ TurnPage.view (snd (TurnPage.next book4)) = [3; 4]
  /\ TurnPage.view (snd (TurnPage.previous (snd (TurnPage.next book4))))
     = [1; 2]
  /\ TurnPage.previous book4 = (TurnPage.Normal, book4).
Proof.
  destruct book4_cursor as (Hd & Ht & Hp).
  assert (Hr : 1 <= TurnPage.page (TurnPage.data book4)
               <= TurnPage.totalPages (TurnPage.data book4))
    by (rewrite Hp, Ht; lia).
  assert (Hv : TurnPage.view book4 = [1; 1 + 1]) by (vm_compute; reflexivity).
  pose proof (double_mode_stepping book4 1 Hd Hr Hv) as (Hn & _ & _ & Hpr).
  split; [exact Hv|].
  destruct (Hn ltac:(rewrite Ht; lia)) as (_ & Hv1 & Hv2).
  split; [exact Hv1|]. split; [exact Hv2|]. apply Hpr. lia.
Defined.

Lemma setPage_notifies_example :
  1 <= 3 <= TurnPage.totalPages (TurnPage.data book4)
  /\ TurnPage.events (snd (TurnPage.setPage 3 book4))
     = TurnPage.events book4 ++ [TurnPage.pageChanged 1 3].
Proof.
  destruct book4_cursor as (Hd & Ht & Hp).
  assert (Hr : 1 <= 3 <= TurnPage.totalPages (TurnPage.data book4))
    by (rewrite Ht; lia).
  pose proof (setPage_notifies book4 3 Hr) as [Hmove _].
  split; [exact Hr|].
  assert (Hne : 3 <> TurnPage.page (TurnPage.data book4))
    by (rewrite Hp; discriminate).
  destruct (Hmove Hne) as [He _]. rewrite Hp in He. exact He.
Defined.

Lemma setPage_shows_view_example :
  exists w w',
    TurnPage.pageWrap (TurnPage.data book4) !! 4 = Some w
    /\ TurnPage.pageWrap (TurnPage.data (snd (TurnPage.setPage 3 book4))) !! 4
       = Some w'
    /\ WrapperStyle.visibility w' = WrapperStyle.visible
    /\ WrapperStyle.left w' = WrapperStyle.px 0.
Proof.
  destruct book4_cursor as (Hd & Ht & Hp).
  destruct (TurnPage.pageWrap (TurnPage.data book4) !! 4) as [w|] eqn:Hw;
    [|vm_compute in Hw; discriminate Hw].
  destruct (setPage_shows_view book4 3 4 w) as (w' & Hw' & Hin & _);
    [rewrite Ht; lia|rewrite Hp; discriminate|rewrite Ht; lia|exact Hw|].
  exists w, w'. split; [reflexivity|]. split; [exact Hw'|].
  assert (Hview : In 4 (TurnPage.view (snd (TurnPage.setPage 3 book4))))
    by (vm_compute; auto).
  destruct (Hin Hview) as (Hvis & _ & _ & _ & Heven & _).
  split; [exact Hvis|]. exact (proj1 (Heven Hd eq_refl)).
Defined.

Lemma tables_invariant_example :
  @TurnPage.reachable host draggedBook
  /\ (is_Some (TurnPage.pageWrap (TurnPage.data draggedBook) !! 2)
      <-> TurnPage.pagePlace (TurnPage.data draggedBook) !! 2 = Some 2).
Proof.
  split; [exact draggedBook_reachable|].
  exact (proj1 (proj2 (@tables_invariant host draggedBook 2
                         draggedBook_reachable))).
Defined.

Lemma drag_never_turns_example :
  TurnPage.pageMv (TurnPage.data book4) = []
  /\ 1 <= TurnPage.page (TurnPage.data book4)
  /\ TurnPage.view
       (snd (TurnPage.handleEnd
               (foldl (fun s q => @TurnPage.handleMove host q s)
                      (@TurnPage.handleStart host
                         (Point2D.mk (JS.ofZ 790) (JS.ofZ 10)) book4)
                      [Point2D.mk (JS.ofZ 795) 0])))
     = TurnPage.view book4.
Proof.
  destruct book4_cursor as (Hd & Ht & Hp).
  assert (Hidle : TurnPage.pageMv (TurnPage.data book4) = [])
    by (vm_compute; reflexivity).
  assert (Hpage : 1 <= TurnPage.page (TurnPage.data book4))
    by (rewrite Hp; lia).
  split; [exact Hidle|]. split; [exact Hpage|].
  exact (proj1 (@drag_never_turns host book4
                  (Point2D.mk (JS.ofZ 790) (JS.ofZ 10))
                  [Point2D.mk (JS.ofZ 795) 0] Hidle Hpage)).
Defined.

Lemma setDisplay_resizes_example :
  TurnPage.done (TurnPage.data book4) = true
  /\ In "single" TurnPage.displays
  /\ exists w',
       TurnPage.pageWrap (TurnPage.data singleBook) !! 1 = Some w'
       /\ WrapperStyle.width w' = JS.ofZ 800.
Proof.
  destruct book4_cursor as (Hd & Ht & Hp).
  assert (Hdone : TurnPage.done (TurnPage.data book4) = true)
    by (vm_compute; reflexivity).
  assert (Hin : In "single" TurnPage.displays) by (left; reflexivity).
  assert (Hne : "single" <> TurnPage.display (TurnPage.data book4))
    by (rewrite Hd; discriminate).
  split; [exact Hdone|]. split; [exact Hin|].
  destruct (TurnPage.pageWrap (TurnPage.data singleBook) !! 1) as [w'|] eqn:Hw;
    [|vm_compute in Hw; discriminate Hw].
  exists w'. split; [reflexivity|].
  destruct (setDisplay_resizes book4 "single" 1 Hdone Hin Hne) as (Hwidth & _).
  rewrite (Hwidth w' Hw). vm_compute. apply Qc_is_canon. reflexivity.
Defined.

End EvaluatedMore.
